(** * Popcorn migration tests: ft2c and threads_never_die

    A shallow embedding of the two test programs

      - heterogeneous_test_suits/simple_mt_tests/ft2c/ft2c.c
      - heterogeneous_test_suits/simple_mt_tests/threads_never_die/tnd.c

    and the properties of their argument validation, of the travelling
    thread, of the exit code and of the start-up synchronisation.

    The programs talk to the Popcorn kernel library (gettid, migrate,
    popcorn_getnodeinfo, popcorn_getthreadinfo) and to the C library.  What
    those calls answer is not decided by the programs: a [Platform] supplies
    the answer of the k-th call of each primitive, and every function below
    is a function of the platform.  A C [int] is a [Z]; the only arithmetic
    on ids is comparison and one bit-wise or, both of which agree with the
    32-bit operations on values in range. *)

From Stdlib Require Import ZArith List String Ascii Lia Bool.
From stdpp Require Import base list.
Import ListNotations.
Open Scope Z_scope.

(** ** C integers and the C library *)

Definition INT_MIN : Z := - 2 ^ 31.
Definition INT_MAX : Z := 2 ^ 31 - 1.
Definition LONG_MIN : Z := - 2 ^ 63.
Definition LONG_MAX : Z := 2 ^ 63 - 1.

(** Conversion of a [long] to [int]: the low 32 bits, read as signed. *)
Definition wrap_int (z : Z) : Z := (z + 2 ^ 31) mod 2 ^ 32 - 2 ^ 31.

(** errno.h on Linux. *)
Definition EAGAIN : Z := 11.
Definition EBUSY : Z := 16.
Definition EINVAL : Z := 22.

Definition isspace (c : ascii) : bool :=
  let n := nat_of_ascii c in
  (n =? 32)%nat || ((9 <=? n)%nat && (n <=? 13)%nat).

Definition digit_of (c : ascii) : option Z :=
  let n := Z.of_nat (nat_of_ascii c) in
  if (48 <=? n) && (n <=? 57) then Some (n - 48) else None.

Fixpoint skip_space (s : string) : string :=
  match s with
  | String c s' => if isspace c then skip_space s' else s
  | EmptyString => s
  end.

Fixpoint digits (acc : Z) (s : string) : Z :=
  match s with
  | String c s' =>
      match digit_of c with
      | Some d => digits (10 * acc + d) s'
      | None => acc
      end
  | EmptyString => acc
  end.

(** strtol(s, NULL, 10): blanks, an optional sign, the longest run of
    decimal digits; the value saturates at the bounds of [long]. *)
Definition strtol10 (s : string) : Z :=
  let s := skip_space s in
  let '(neg, s) :=
    match s with
    | String "-"%char s' => (true, s')
    | String "+"%char s' => (false, s')
    | _ => (false, s)
    end in
  let v := digits 0 s in
  Z.max LONG_MIN (Z.min LONG_MAX (if neg then - v else v)).

(** atoi is the C library's; this is glibc's [(int) strtol(s, NULL, 10)].
    The theorems on main hold for whatever strings the arguments are; the
    examples evaluate it. *)
Definition atoi (s : string) : Z := wrap_int (strtol10 s).

(** ** The Popcorn library (platform.h) *)

(** Modelled from the spec: MAX_POPCORN_NODES is defined in platform.h, which
    is not part of the repository; node ids are "bounded by a fixed maximum
    (32 in the reference tests)", and the programs' own diagnostic reads
    "Node ID's must be a positive integer 0-31". *)
Definition MAX_POPCORN_NODES : Z := 32.

Definition NODE_OFFLINE : Z := 0.

(** struct popcorn_node_status and struct popcorn_thread_status, with the
    fields the programs read. *)
Record popcorn_node_status := { status : Z; arch : Z }.
Record popcorn_thread_status := { current_nid : Z }.

(** enum popcorn_arch_types *)
Definition POPCORN_NODE_UNKNOWN : Z := -1.
Definition POPCORN_NODE_AARCH64 : Z := 0.
Definition POPCORN_NODE_X86 : Z := 1.
Definition POPCORN_NODE_PPC64 : Z := 2.

(** static const char *arch_sz[]; the last entry is NULL. *)
Definition arch_sz : list (option string) :=
  [Some "unknown"%string; Some "arm64"%string; Some "x86-64"%string;
   Some "ppc64le"%string; None].

(** Reading [a[i]] for a C array held as a list: [None] is an access outside
    the array. *)
Definition index {A} (a : list A) (i : Z) : option A :=
  if (0 <=? i) && (i <? Z.of_nat (length a)) then a !! Z.to_nat i else None.

(** The answers of the outside world.  [gettid_ret k] is what the k-th
    gettid() of a travelling thread returns, and so on; [pid] is gettid() in
    main.  popcorn_getnodeinfo answers its status, the current node and the
    table it writes into the caller's array. *)
Record Platform := {
  pid : Z;
  gettid_ret : nat -> Z;
  migrate_ret : nat -> Z;
  getnodeinfo_ret : nat -> Z * Z * (nat -> popcorn_node_status);
  getthreadinfo_ret : nat -> Z * popcorn_thread_status;
  malloc_ok : bool;
  memalign_ret : nat -> Z;
  fresh_tid : Z   (* content of the tid field of memory just allocated *)
}.

(** ** What the programs print and do *)

(** One constructor per printf of the two programs, with its arguments; the
    two programs differ in the prefix of the text only ("FT_2_C" / "TND"). *)
Inductive msg :=
| MsgNodeInfoFail (current_nid node_err : Z) (* Cannot retrieve the nodes' information at node %d. ERROR CODE %d *)
| MsgWrongNode (local_nid current_nid : Z)   (* We should be at Node %d. Yet we are at node %d *)
| MsgNodeOffline (nid : Z)                   (* Node %d is offline. *)
| MsgLocalArch (nid : Z) (name : option string)  (* Local Node %d architecture is %s. *)
| MsgRemoteArch (nid : Z) (name : option string) (* Remote Node %d architecture is %s. *)
| MsgThreadInfoFail (nid err : Z)            (* Cannot retrieve the thread' information at node %d. ERROR CODE: %d *)
| MsgThreadWrongNode (tid nid current : Z)   (* Thread %d should be at node %d. But instead it is at node %d *)
| MsgBadTid (tid : Z)                        (* Thread ID is not a positive integer, TID: %d *)
| MsgThreadIdD (tid : Z)                     (* FT_2_D: Thread ID is %d *)
| MsgThreadId (tid : Z)                      (* FT_2_C: Thread ID is %d *)
| MsgInvalidDest (tid nid : Z)               (* Thread %d. Invalid Migration Destination %d *)
| MsgAlreadyAt (tid nid : Z)                 (* Thread %d already running at destination %d *)
| MsgDestOffline (tid nid : Z)               (* Thread %d could not reach destination %d. Node is offline. *)
| MsgMigrateFail (tid err : Z)               (* Thread %d could not migrate, process_server_do_migration returned %d *)
| MsgArrivedBack                             (* We should have arrived back at source node. *)
| MsgTidMismatch (temp_tid source_tid : Z)   (* Thread ID %d does not match original TID %d *)
| MsgThreadPassed (tid nid : Z)              (* Thread %d PASSED at NODE %d *)
| MsgTouchedSink (tid : Z) (name : option string)   (* TND[%d]: Touched %s line, pivot and run back to source node *)
| MsgTouchedSource (tid : Z) (name : option string) (* TND[%d]: Touched %s line, pivot and run back to sink node *)
| MsgBadPid (pid : Z)                        (* Process ID is not a positive integer, PID: %d *)
| MsgUsage                                   (* This test takes N arguments, ... *)
| MsgProcessId (pid : Z)                     (* Process ID is %d *)
| MsgSameNode                                (* Source Node ID must be different to Sink Node ID *)
| MsgBadNodeId                               (* Node ID's must be a positive integer 0-31 *)
| MsgInitFail (err : Z)                      (* Failed to Init pcn_thread / __init_thread_params() failed *)
| MsgThreadExit (node tid code : Z)          (* TEST at NODE %d Thread %d exited with CODE %d *)
| MsgTestPassed (node : Z).                  (* TEST PASSED at NODE %d *)

(** The observable actions of a run, newest first in a trace. *)
Inductive event :=
| Print (m : msg)
| Migrate (nid : Z)
| Sleep (secs : Z)
| Malloc
| Memalign
| BarrierInit (count : Z)
| Create (i : nat)
| BarrierWait
| Join (i : nat)
| Free (i : nat).

(** How a run of main ends. *)
Inductive outcome :=
| Exited (code : Z)
| Hangs                 (* main waits for ever *)
| UndefinedBehaviour.   (* the C program has no defined behaviour *)

(** ** A monad for C function bodies

    A statement either falls through to the next one, returns from the
    function, or has no defined behaviour.  The state is the struct thread
    of the running task, the trace, and how many times each primitive has
    been called. *)
Inductive flow (R A : Type) : Type :=
| Next (a : A)
| Return (r : R)
| Undefined.
Arguments Next {R A} a.
Arguments Return {R A} r.
Arguments Undefined {R A}.

Record world (T : Type) := World {
  self : T;
  trace : list event;
  n_gettid : nat;
  n_migrate : nat;
  n_nodeinfo : nat;
  n_threadinfo : nat
}.
Arguments World {T}.
Arguments self {T}.
Arguments trace {T}.
Arguments n_gettid {T}.
Arguments n_migrate {T}.
Arguments n_nodeinfo {T}.
Arguments n_threadinfo {T}.

Definition M (T R A : Type) : Type := world T -> flow R A * world T.

Definition ret {T R A} (a : A) : M T R A := fun w => (Next a, w).

Definition bind {T R A B} (c : M T R A) (k : A -> M T R B) : M T R B :=
  fun w =>
    match c w with
    | (Next a, w') => k a w'
    | (Return r, w') => (Return r, w')
    | (Undefined, w') => (Undefined, w')
    end.

Definition return_ {T R A} (r : R) : M T R A := fun w => (Return r, w).

Definition undefined {T R A} : M T R A := fun w => (Undefined, w).

(** A call of a function from another body: its return value is the value. *)
Definition call {T R R'} (body : M T R R) : M T R' R :=
  fun w =>
    match body w with
    | (Next r, w') | (Return r, w') => (Next r, w')
    | (Undefined, w') => (Undefined, w')
    end.

Definition when {T R} (b : bool) (c : M T R unit) : M T R unit :=
  if b then c else ret tt.

(** [a[i]], undefined outside the array. *)
Definition load {T R A} (a : list A) (i : Z) : M T R A :=
  match index a i with
  | Some x => ret x
  | None => undefined
  end.

Notation "x <- c ;; k" := (bind c (fun x => k))
  (at level 100, c at next level, right associativity).
Notation "c ;; k" := (bind c (fun _ : unit => k))
  (at level 100, right associativity).

(** C truth of an int. *)
Definition nonzero (z : Z) : bool := negb (z =? 0).

Section Primitives.
Context {T R : Type}.
Variable p : Platform.

Definition emit (e : event) : M T R unit :=
  fun w => (Next tt, World (self w) (e :: trace w) (n_gettid w) (n_migrate w)
                           (n_nodeinfo w) (n_threadinfo w)).

Definition printf (m : msg) : M T R unit := emit (Print m).

Definition get {A} (field : T -> A) : M T R A :=
  fun w => (Next (field (self w)), w).

Definition update (f : T -> T) : M T R unit :=
  fun w => (Next tt, World (f (self w)) (trace w) (n_gettid w) (n_migrate w)
                           (n_nodeinfo w) (n_threadinfo w)).

Definition gettid : M T R Z :=
  fun w => (Next (gettid_ret p (n_gettid w)),
            World (self w) (trace w) (S (n_gettid w)) (n_migrate w)
                  (n_nodeinfo w) (n_threadinfo w)).

Definition migrate (nid : Z) : M T R Z :=
  fun w => (Next (migrate_ret p (n_migrate w)),
            World (self w) (Migrate nid :: trace w) (n_gettid w) (S (n_migrate w))
                  (n_nodeinfo w) (n_threadinfo w)).

(** popcorn_getnodeinfo(&current_nid, pnodes): the array has FT2C_NODES =
    TND_NODES = 32 entries. *)
Definition popcorn_getnodeinfo : M T R (Z * Z * list popcorn_node_status) :=
  fun w =>
    let '(err, cur, tbl) := getnodeinfo_ret p (n_nodeinfo w) in
    (Next (err, cur, map tbl (seq 0 32)),
     World (self w) (trace w) (n_gettid w) (n_migrate w)
           (S (n_nodeinfo w)) (n_threadinfo w)).

Definition popcorn_getthreadinfo : M T R (Z * popcorn_thread_status) :=
  fun w => (Next (getthreadinfo_ret p (n_threadinfo w)),
            World (self w) (trace w) (n_gettid w) (n_migrate w)
                  (n_nodeinfo w) (S (n_threadinfo w))).
End Primitives.

(** ** ft2c.c *)

Module Ft2c.

Record thread := Thread { tid : Z; source_nid : Z; sink_nid : Z; done : Z }.

Definition set_tid (v : Z) (t : thread) : thread :=
  Thread v (source_nid t) (sink_nid t) (done t).
Definition set_done (v : Z) (t : thread) : thread :=
  Thread (tid t) (source_nid t) (sink_nid t) v.

Section Program.
Variable p : Platform.

Definition node_sanity_check (local_nid remote_nid : Z) : M thread Z Z :=
  let node_err := 0 in
  info <- popcorn_getnodeinfo p ;;
  let '(node_err, current_nid, pnodes) := info in
  when (nonzero node_err)
    (printf (MsgNodeInfoFail current_nid node_err) ;;
     return_ node_err) ;;
  (if negb (current_nid =? local_nid) then
     printf (MsgWrongNode local_nid current_nid) ;;
     return_ (-1)
   else
     l <- load pnodes local_nid ;;
     if status l =? NODE_OFFLINE then
       printf (MsgNodeOffline local_nid) ;;
       return_ (-1)
     else
       r <- load pnodes remote_nid ;;
       if status r =? NODE_OFFLINE then
         printf (MsgNodeOffline remote_nid) ;;
         return_ (-1)
       else ret tt) ;;
  l <- load pnodes local_nid ;;
  lname <- load arch_sz (arch l + 1) ;;
  printf (MsgLocalArch local_nid lname) ;;
  r <- load pnodes remote_nid ;;
  rname <- load arch_sz (arch r + 1) ;;
  printf (MsgRemoteArch remote_nid rname) ;;
  return_ node_err.

Definition thread_sanity_check (nid tid : Z) : M thread Z Z :=
  info <- popcorn_getthreadinfo p ;;
  let '(thread_err, st) := info in
  when (nonzero thread_err)
    (printf (MsgThreadInfoFail nid thread_err) ;;
     return_ thread_err) ;;
  when (negb (current_nid st =? nid))
    (printf (MsgThreadWrongNode tid nid (current_nid st)) ;;
     return_ (-1)) ;;
  return_ thread_err.

(** The thread function returns NULL on every path; its local
    ft2c_thread_errno dies with it. *)
Definition child_thread : M thread unit unit :=
  source_tid <- gettid p ;;
  emit BarrierWait ;;
  when (source_tid =? -1)
    (printf (MsgBadTid source_tid) ;;
     update (set_done 1) ;;
     return_ tt) ;;
  printf (MsgThreadIdD source_tid) ;;
  update (set_tid source_tid) ;;
  (* Node Sanity Check *)
  src <- get source_nid ;;
  snk <- get sink_nid ;;
  ft2c_thread_errno <- call (node_sanity_check src snk) ;;
  when (nonzero ft2c_thread_errno)
    (update (set_done 1) ;;
     return_ tt) ;;
  (* Get thread status. *)
  src <- get source_nid ;;
  ft2c_thread_errno <- call (thread_sanity_check src source_tid) ;;
  when (nonzero ft2c_thread_errno)
    (update (set_done 1) ;;
     return_ tt) ;;
  (* Migrate Thread to sink_nid *)
  snk <- get sink_nid ;;
  ft2c_thread_errno <- migrate p snk ;;
  when (nonzero ft2c_thread_errno)
    (snk <- get sink_nid ;;
     if ft2c_thread_errno =? - EINVAL then
       printf (MsgInvalidDest source_tid snk) ;;
       update (set_done 1)
     else if ft2c_thread_errno =? - EBUSY then
       printf (MsgAlreadyAt source_tid snk) ;;
       update (set_done 1)
     else if ft2c_thread_errno =? - EAGAIN then
       printf (MsgDestOffline source_tid snk) ;;
       update (set_done 1)
     else
       printf (MsgMigrateFail source_tid ft2c_thread_errno) ;;
       update (set_done 1)) ;;
  (* Did we fail at the switch statement? *)
  d <- get done ;;
  when (nonzero d) (return_ tt) ;;
  (* We should be at sink_nid. Get TID at Sink Node *)
  sink_tid <- gettid p ;;
  when (sink_tid =? -1)
    (printf (MsgBadTid sink_tid) ;;
     update (set_done 1) ;;
     return_ tt) ;;
  (* Migrate Thread Back to source_nid *)
  src <- get source_nid ;;
  ft2c_thread_errno <- migrate p src ;;
  printf MsgArrivedBack ;;
  temp_tid <- gettid p ;;
  (if temp_tid =? -1 then
     printf (MsgBadTid temp_tid) ;;
     update (set_done 1) ;;
     return_ tt
   else if negb (temp_tid =? source_tid) then
     printf (MsgTidMismatch temp_tid source_tid) ;;
     update (set_done 1) ;;
     return_ tt
   else ret tt) ;;
  printf (MsgThreadId source_tid) ;;
  (* Node Sanity Check *)
  src <- get source_nid ;;
  snk <- get sink_nid ;;
  ft2c_thread_errno <- call (node_sanity_check src snk) ;;
  when (nonzero ft2c_thread_errno)
    (update (set_done 1) ;;
     return_ tt) ;;
  src <- get source_nid ;;
  printf (MsgThreadPassed source_tid src) ;;
  update (set_done 1) ;;
  return_ tt.

(** main, on x86-64.  The single child runs between main's barrier wait and
    the end of main's spin on [done]: main neither prints nor changes
    *pcn_thread in between, so the run is the sequence below.  Reading
    argv[i] for i >= argc hands atoi a null pointer or reads past the
    array. *)
Definition main (argv : list string) : outcome * list event :=
  let argc := Z.of_nat (length argv) in
  let ft2c_errno := 0 in
  let source_pid := pid p in
  if source_pid =? -1 then
    (Exited (-1), [Print (MsgBadPid source_pid)])
  else
    let tr := if negb (argc =? 3) then [Print MsgUsage] else [] in
    let tr := Print (MsgProcessId source_pid) :: tr in
    match argv !! 1%nat, argv !! 2%nat with
    | Some a1, Some a2 =>
        let source_node := atoi a1 in
        let sink_node := atoi a2 in
        if source_node =? sink_node then
          (Exited (-1), Print MsgSameNode :: tr)
        else if (Z.lor source_node sink_node <? 0)
                || (source_node >=? MAX_POPCORN_NODES)
                || (sink_node >=? MAX_POPCORN_NODES) then
          (Exited (-1), Print MsgBadNodeId :: tr)
        else
          (* Init popcorn "traveling" thread *)
          let ft2c_errno := memalign_ret p 0 in
          let tr := Memalign :: tr in
          if nonzero ft2c_errno then
            (Exited ft2c_errno, Print (MsgInitFail ft2c_errno) :: tr)
          else
            let tr := BarrierInit 2 :: tr in
            let pcn_thread := Thread (fresh_tid p) source_node sink_node 0 in
            (* Create and init pthread *)
            let tr := Create 0 :: tr in
            let tr := BarrierWait :: tr in
            match child_thread (World pcn_thread tr 0 0 0 0)%nat with
            | (Undefined, w) => (UndefinedBehaviour, trace w)
            | (_, w) =>
                (* while(!pcn_thread->done); *)
                if done (self w) =? 0 then (Hangs, trace w)
                else
                  let tr := Join 0 :: trace w in
                  let tr := Print (MsgThreadExit source_node (tid (self w)) ft2c_errno) :: tr in
                  let tr := Free 0 :: tr in
                  let tr := Print (MsgTestPassed source_node) :: tr in
                  (Exited ft2c_errno, tr)
            end
    | _, _ => (UndefinedBehaviour, tr)
    end.
End Program.

End Ft2c.

(** ** threads_never_die/tnd.c *)

Module Tnd.

Record thread := Thread {
  tid : Z;
  source_nid : Z;
  sink_nid : Z;
  done : Z;
  err : Z;
  flag : Z;
  arch_types : list Z   (* int arch_types[2] *)
}.

(** What a travelling thread touches: its own struct thread (the argument of
    child_thread) and the global counters all_done and gcount. *)
Record mem := Mem { current_thread : thread; all_done : Z; gcount : Z }.

Definition on_thread (f : thread -> thread) (m : mem) : mem :=
  Mem (f (current_thread m)) (all_done m) (gcount m).
Definition set_tid (v : Z) : mem -> mem :=
  on_thread (fun t => Thread v (source_nid t) (sink_nid t) (done t) (err t) (flag t) (arch_types t)).
Definition set_done (v : Z) : mem -> mem :=
  on_thread (fun t => Thread (tid t) (source_nid t) (sink_nid t) v (err t) (flag t) (arch_types t)).
Definition set_err (v : Z) : mem -> mem :=
  on_thread (fun t => Thread (tid t) (source_nid t) (sink_nid t) (done t) v (flag t) (arch_types t)).
Definition set_flag (v : Z) : mem -> mem :=
  on_thread (fun t => Thread (tid t) (source_nid t) (sink_nid t) (done t) (err t) v (arch_types t)).
Definition set_arch_types (a : list Z) : mem -> mem :=
  on_thread (fun t => Thread (tid t) (source_nid t) (sink_nid t) (done t) (err t) (flag t) a).
Definition incr_all_done (m : mem) : mem :=
  Mem (current_thread m) (all_done m + 1) (gcount m).

(** main's initialisation of threads[i] (lines 354-361). *)
Definition init_thread (source_node sink_node : Z) : thread :=
  Thread 0 source_node sink_node 0 0 0 [0; 0].

Section Program.
Variable p : Platform.

(** [arch_types[i] = v] through the pointer handed to node_sanity_check,
    which points to the two-element array of the thread: a store outside
    it has no defined behaviour. *)
Definition store_arch_types {R} (i v : Z) : M mem R unit :=
  a <- get (fun m => arch_types (current_thread m)) ;;
  if (0 <=? i) && (i <? Z.of_nat (length a)) then
    update (set_arch_types (<[Z.to_nat i := v]> a))
  else undefined.

Definition node_sanity_check (local_nid remote_nid : Z) : M mem Z Z :=
  let node_err := 0 in
  info <- popcorn_getnodeinfo p ;;
  let '(node_err, current_nid, pnodes) := info in
  when (nonzero node_err)
    (printf (MsgNodeInfoFail current_nid node_err) ;;
     return_ node_err) ;;
  (if negb (current_nid =? local_nid) then
     printf (MsgWrongNode local_nid current_nid) ;;
     return_ (-1)
   else
     l <- load pnodes local_nid ;;
     if status l =? NODE_OFFLINE then
       printf (MsgNodeOffline local_nid) ;;
       return_ (-1)
     else
       r <- load pnodes remote_nid ;;
       if status r =? NODE_OFFLINE then
         printf (MsgNodeOffline remote_nid) ;;
         return_ (-1)
       else ret tt) ;;
  l <- load pnodes local_nid ;;
  store_arch_types local_nid (arch l + 1) ;;
  r <- load pnodes remote_nid ;;
  store_arch_types remote_nid (arch r + 1) ;;
  return_ node_err.

(** child_thread up to the loop (lines 205-227); falls through with the
    locals source_tid, rnode and snode. *)
Definition child_thread_entry : M mem unit (Z * Z * Z) :=
  source_tid <- gettid p ;;
  rnode <- get (fun m => sink_nid (current_thread m)) ;;
  snode <- get (fun m => source_nid (current_thread m)) ;;
  when (source_tid =? -1)
    (printf (MsgBadTid source_tid) ;;
     update (set_err (-1)) ;;
     update (set_done 1) ;;
     update incr_all_done ;;
     return_ tt) ;;
  update (set_tid source_tid) ;;
  (* Node Sanity Check *)
  e <- call (node_sanity_check snode rnode) ;;
  update (set_err e) ;;
  when (nonzero e)
    (update (set_done 1) ;;
     update incr_all_done ;;
     return_ tt) ;;
  ret (source_tid, rnode, snode).

(** One turn of while(1) (lines 236-303). *)
Definition loop_body (source_tid rnode snode : Z) : M mem unit unit :=
  (* Migrate Thread to sink_nid *)
  e <- migrate p rnode ;;
  update (set_err e) ;;
  e <- get (fun m => err (current_thread m)) ;;
  when (nonzero e)
    (snk <- get (fun m => sink_nid (current_thread m)) ;;
     if e =? - EINVAL then
       printf (MsgInvalidDest source_tid snk) ;;
       update (set_done 1)
     else if e =? - EBUSY then
       printf (MsgAlreadyAt source_tid snk) ;;
       update (set_done 1)
     else if e =? - EAGAIN then
       printf (MsgDestOffline source_tid snk) ;;
       update (set_done 1)
     else
       printf (MsgMigrateFail source_tid e) ;;
       update (set_done 1)) ;;
  (* Did we fail at the switch statement? *)
  d <- get (fun m => done (current_thread m)) ;;
  when (nonzero d)
    (update incr_all_done ;;
     return_ tt) ;;
  (* We should be at sink_nid. Get TID at Sink Node *)
  sink_tid <- gettid p ;;
  update (set_flag sink_tid) ;;
  when (sink_tid =? -1)
    (printf (MsgBadTid sink_tid) ;;
     update (set_err (-1)) ;;
     update (set_done 1) ;;
     update incr_all_done ;;
     return_ tt) ;;
  a <- get (fun m => arch_types (current_thread m)) ;;
  k <- load a rnode ;;
  name <- load arch_sz k ;;
  printf (MsgTouchedSink sink_tid name) ;;
  (* Migrate Thread Back to source_nid *)
  src <- get (fun m => source_nid (current_thread m)) ;;
  e <- migrate p src ;;
  update (set_err e) ;;
  a <- get (fun m => arch_types (current_thread m)) ;;
  k <- load a snode ;;
  name <- load arch_sz k ;;
  printf (MsgTouchedSource source_tid name) ;;
  (* Take some well deserved rest, than do another back and forth *)
  emit (Sleep 1).

(** while(1), cut after [turns] turns: [Next] is a thread that is about to
    start turn number [turns], [Return] one that has left child_thread. *)
Fixpoint loop (turns : nat) (source_tid rnode snode : Z) : M mem unit unit :=
  match turns with
  | O => ret tt
  | S n => loop_body source_tid rnode snode ;; loop n source_tid rnode snode
  end.

Definition child_thread (turns : nat) : M mem unit unit :=
  locals <- child_thread_entry ;;
  let source_tid := fst (fst locals) in
  let rnode := snd (fst locals) in
  let snode := snd locals in
  loop turns source_tid rnode snode.

(** The for loop of __init_thread_params: [todo] allocations from index i. *)
Fixpoint alloc_loop (todo i : nat) (tr : list event) : Z * list event :=
  match todo with
  | O => (0, tr)
  | S todo' =>
      let init_errno := memalign_ret p i in
      if nonzero init_errno then (init_errno, Memalign :: tr)
      else alloc_loop todo' (S i) (Memalign :: tr)
  end.

(** [None]: malloc returned a null pointer and threads[0] is written. *)
Definition __init_thread_params (nthreads : Z) (tr : list event)
  : option (Z * list event) :=
  let tr := Malloc :: tr in
  if (0 <? nthreads) && negb (malloc_ok p) then None
  else
    let '(init_errno, tr) := alloc_loop (Z.to_nat nthreads) 0 tr in
    if nonzero init_errno then Some (init_errno, tr)
    else Some (0, BarrierInit (nthreads + 1) :: tr).

(** The for loop of main that starts the threads. *)
Fixpoint create_loop (todo i : nat) (tr : list event) : list event :=
  match todo with
  | O => tr
  | S todo' => create_loop todo' (S i) (Create i :: tr)
  end.

(** main, on x86-64.  The threads never call pthread_barrier_wait, so with
    one thread or more main stays in its first wait on the barrier of
    nthreads + 1 parties (see [tnd_main_stuck] below for the
    interleavings); with a negative nthreads the barrier is initialised
    with a count of 0 or above INT_MAX, which fails, and main waits on a
    barrier that was never initialised. *)
Definition main (argv : list string) : outcome * list event :=
  let argc := Z.of_nat (length argv) in
  let tnd_errno := 0 in
  let source_pid := pid p in
  let gcount := 0 in
  if source_pid =? -1 then
    (Exited (-1), [Print (MsgBadPid source_pid)])
  else
    let tr := if negb (argc =? 4) then [Print MsgUsage] else [] in
    let tr := Print (MsgProcessId source_pid) :: tr in
    match argv !! 1%nat, argv !! 2%nat, argv !! 3%nat with
    | Some a1, Some a2, Some a3 =>
        let source_node := atoi a1 in
        let sink_node := atoi a2 in
        let nthreads := atoi a3 in
        if source_node =? sink_node then
          (Exited (-1), Print MsgSameNode :: tr)
        else if (Z.lor source_node sink_node <? 0)
                || (source_node >=? MAX_POPCORN_NODES)
                || (sink_node >=? MAX_POPCORN_NODES) then
          (Exited (-1), Print MsgBadNodeId :: tr)
        else
          (* Init popcorn "traveling" threads *)
          match __init_thread_params nthreads tr with
          | None => (UndefinedBehaviour, Malloc :: tr)
          | Some (tnd_errno, tr) =>
              if nonzero tnd_errno then
                (Exited tnd_errno, Print (MsgInitFail tnd_errno) :: tr)
              else
                let tr := create_loop (Z.to_nat nthreads) 0 tr in
                let tr := BarrierWait :: tr in
                if nthreads <? 0 then (UndefinedBehaviour, tr)
                else if 0 <? nthreads then (Hangs, tr)
                else
                  (* nthreads = 0: a barrier of one party, both polling
                     loops and the join loop are empty *)
                  if gcount <? nthreads then (Hangs, tr)
                  else
                    let tr := BarrierWait :: tr in
                    let tr := Print (MsgTestPassed source_node) :: tr in
                    (Exited tnd_errno, tr)
          end
    | _, _, _ => (UndefinedBehaviour, tr)
    end.
End Program.

End Tnd.

(** ** Interleavings of main and the travelling threads

    The sequential functions above follow one thread.  The start-up protocol
    is a matter of how main and the threads interleave: here every thread
    has a program point, a step moves one thread across one synchronisation
    relevant statement, and a barrier releases its waiters together once as
    many wait as it was initialised for.  Whether a check fails is the
    platform's choice, so a thread may take either branch. *)

Module Ft2cSched.

(** Program points of main from pthread_barrier_init on (lines 355-375). *)
Inductive main_pc :=
| M_create      (* 355-362: barrier of 2, fill *pcn_thread, pthread_create *)
| M_barrier     (* 364: about to call pthread_barrier_wait *)
| M_waiting     (* blocked in the barrier *)
| M_poll        (* 367: while(!pcn_thread->done); *)
| M_join        (* 369 *)
| M_report      (* 370-374 *)
| M_exited.

(** Program points of child_thread (lines 184-307). *)
Inductive child_pc :=
| C_absent      (* not created yet *)
| C_entry       (* 187: gettid, about to call pthread_barrier_wait *)
| C_waiting     (* 190: blocked in the barrier *)
| C_check_tid   (* 192 *)
| C_sanity      (* 204-215: node and thread sanity checks *)
| C_migrate_out (* 218 *)
| C_at_sink     (* 251 *)
| C_migrate_back (* 273 *)
| C_verify      (* 278-298 *)
| C_returned.

Record state := State { mpc : main_pc; cpc : child_pc; done : Z }.

Definition init : state := State M_create C_absent 0.

Inductive step : state -> state -> Prop :=
| main_create d :
    step (State M_create C_absent d) (State M_barrier C_entry 0)
| main_arrive c d :
    step (State M_barrier c d) (State M_waiting c d)
| child_arrive m d :
    step (State m C_entry d) (State m C_waiting d)
| barrier_release d :
    step (State M_waiting C_waiting d) (State M_poll C_check_tid d)
| child_tid_ok m d :
    step (State m C_check_tid d) (State m C_sanity d)
| child_sanity_ok m d :
    step (State m C_sanity d) (State m C_migrate_out d)
| child_migrated m d :
    step (State m C_migrate_out d) (State m C_at_sink d)
| child_sink_ok m d :
    step (State m C_at_sink d) (State m C_migrate_back d)
| child_back m d :
    step (State m C_migrate_back d) (State m C_verify d)
| child_fail m c d :
    In c [C_check_tid; C_sanity; C_migrate_out; C_at_sink; C_verify] ->
    step (State m c d) (State m C_returned 1)
| child_pass m d :
    step (State m C_verify d) (State m C_returned 1)
| main_poll_exit c d :
    d <> 0 ->
    step (State M_poll c d) (State M_join c d)
| main_joined d :
    step (State M_join C_returned d) (State M_report C_returned d)
| main_return c d :
    step (State M_report c d) (State M_exited c d).

Inductive reachable : state -> Prop :=
| reach_init : reachable init
| reach_step s s' : reachable s -> step s s' -> reachable s'.



End Ft2cSched.

Module TndSched.

(** Program points of main from the creation loop on (lines 352-383). *)
Inductive main_pc :=
| M_create (i : nat)  (* 352-364: about to set up and create threads[i] *)
| M_barrier1          (* 366: about to call pthread_barrier_wait *)
| M_waiting1          (* blocked in the barrier *)
| M_poll_gcount       (* 368: while(gcount < nthreads); *)
| M_barrier2          (* 370 *)
| M_waiting2
| M_poll_all_done     (* 372: while(all_done < nthreads); *)
| M_join (i : nat)    (* 374-380 *)
| M_report            (* 382 *)
| M_exited.

(** Program points of child_thread (lines 203-305); it has no call of
    pthread_barrier_wait. *)
Inductive task_pc :=
| T_absent       (* not created yet *)
| T_entry        (* 206-217: gettid and its check *)
| T_sanity       (* 223: node_sanity_check *)
| T_migrate_out  (* 240-269 *)
| T_at_sink      (* 274-286 *)
| T_migrate_back (* 296 *)
| T_sleep        (* 302 *)
| T_returned.

Record state := State {
  mpc : main_pc;
  tasks : list task_pc;   (* threads[0 .. nthreads-1] *)
  gcount : Z;
  all_done : Z;
  waiting : nat           (* threads blocked in barrier_start *)
}.

(** main after lines 316-318 and __init_thread_params. *)
Definition init (nthreads : nat) : state :=
  State (M_create 0) (replicate nthreads T_absent) 0 0 0.

Section Steps.
Variable nthreads : nat.

(** The barrier is initialised with nthreads + 1. *)
Definition barrier_count : nat := S nthreads.

Inductive step : state -> state -> Prop :=
| main_create i ts g a w :
    (i < nthreads)%nat ->
    step (State (M_create i) ts g a w)
         (State (M_create (S i)) (<[i := T_entry]> ts) g a w)
| main_created i ts g a w :
    ~ (i < nthreads)%nat ->
    step (State (M_create i) ts g a w) (State M_barrier1 ts g a w)
| main_arrive1 ts g a w :
    step (State M_barrier1 ts g a w) (State M_waiting1 ts g a (S w))
| main_release1 ts g a w :
    w = barrier_count ->
    step (State M_waiting1 ts g a w) (State M_poll_gcount ts g a 0)
| main_poll_gcount_exit ts g a w :
    ~ (g < Z.of_nat nthreads) ->
    step (State M_poll_gcount ts g a w) (State M_barrier2 ts g a w)
| main_arrive2 ts g a w :
    step (State M_barrier2 ts g a w) (State M_waiting2 ts g a (S w))
| main_release2 ts g a w :
    w = barrier_count ->
    step (State M_waiting2 ts g a w) (State M_poll_all_done ts g a 0)
| main_poll_all_done_exit ts g a w :
    ~ (a < Z.of_nat nthreads) ->
    step (State M_poll_all_done ts g a w) (State (M_join 0) ts g a w)
| main_join i ts g a w :
    (i < nthreads)%nat ->
    ts !! i = Some T_returned ->
    step (State (M_join i) ts g a w) (State (M_join (S i)) ts g a w)
| main_joined i ts g a w :
    ~ (i < nthreads)%nat ->
    step (State (M_join i) ts g a w) (State M_report ts g a w)
| main_return ts g a w :
    step (State M_report ts g a w) (State M_exited ts g a w)
| task_tid_ok m i ts g a w :
    ts !! i = Some T_entry ->
    step (State m ts g a w) (State m (<[i := T_sanity]> ts) g a w)
| task_sanity_ok m i ts g a w :
    ts !! i = Some T_sanity ->
    step (State m ts g a w) (State m (<[i := T_migrate_out]> ts) g a w)
| task_migrated m i ts g a w :
    ts !! i = Some T_migrate_out ->
    step (State m ts g a w) (State m (<[i := T_at_sink]> ts) g a w)
| task_sink_ok m i ts g a w :
    ts !! i = Some T_at_sink ->
    step (State m ts g a w) (State m (<[i := T_migrate_back]> ts) g a w)
| task_back m i ts g a w :
    ts !! i = Some T_migrate_back ->
    step (State m ts g a w) (State m (<[i := T_sleep]> ts) g a w)
| task_slept m i ts g a w :
    ts !! i = Some T_sleep ->
    step (State m ts g a w) (State m (<[i := T_migrate_out]> ts) g a w)
| task_fail m i c ts g a w :
    ts !! i = Some c ->
    In c [T_entry; T_sanity; T_migrate_out; T_at_sink] ->
    step (State m ts g a w) (State m (<[i := T_returned]> ts) g (a + 1) w).

Inductive reachable : state -> Prop :=
| reach_init : reachable (init nthreads)
| reach_step s s' : reachable s -> step s s' -> reachable s'.
End Steps.

(** main is at the join loop or beyond it. *)
Definition reached_join (m : main_pc) : Prop :=
  match m with
  | M_join _ | M_report | M_exited => True
  | _ => False
  end.

(** main has not left its first polling loop, while(gcount < nthreads). *)
Definition not_past_gcount_poll (m : main_pc) : Prop :=
  match m with
  | M_create _ | M_barrier1 | M_waiting1 | M_poll_gcount => True
  | _ => False
  end.

(** main has not come out of its first pthread_barrier_wait. *)
Definition not_past_barrier1 (m : main_pc) : Prop :=
  match m with
  | M_create _ | M_barrier1 | M_waiting1 => True
  | _ => False
  end.

End TndSched.

(** ** Vocabulary of the statements *)

(** Node ids the platform has: [0, MAX_POPCORN_NODES). *)
Definition in_range (nid : Z) : Prop := 0 <= nid < MAX_POPCORN_NODES.

(** Everything but printing: storage for tasks, the barrier, threads,
    migration. *)
Definition is_task_event (e : event) : bool :=
  match e with
  | Print _ => false
  | _ => true
  end.

Definition no_task_events (tr : list event) : Prop :=
  Forall (fun e => is_task_event e = false) tr.

(** The run ends with a non-zero exit code and has done nothing but print. *)
Definition rejected (r : outcome * list event) : Prop :=
  (exists code, r.1 = Exited code /\ code <> 0) /\ no_task_events r.2.

(** The last thing the run printed or did. *)
Definition last_event (r : outcome * list event) : option event := head r.2.

(** [tr] is [base] with events added in front, all of them in [P]. *)
Inductive grows (P : event -> Prop) (base : list event) : list event -> Prop :=
| grows_refl : grows P base base
| grows_cons e tr : P e -> grows P base tr -> grows P base (e :: tr).

(** What a stretch of tnd's child_thread leaves alone: it does not write
    gcount and it does not wait on the barrier. *)
Definition thread_frame (w w' : world Tnd.mem) : Prop :=
  Tnd.gcount (self w') = Tnd.gcount (self w) /\
  grows (fun e => e <> BarrierWait) (trace w) (trace w').

(** What main has printed when it reaches the checks of the node ids; [n] is
    the argc it expects. *)
Definition banner (p : Platform) (argv : list string) (n : Z) : list msg :=
  MsgProcessId (pid p) :: (if negb (Z.of_nat (length argv) =? n) then [MsgUsage] else []).

(** The world in which a thread enters child_thread. *)
Definition enter {T} (t : T) (tr : list event) : world T :=
  World t tr 0 0 0 0.

(** The travelling thread of ft2c has called migrate for the hop back. *)
Definition hopped_back {T} (w : world T) : Prop := n_migrate w = 2%nat.

(** The travelling thread of ft2c has come to its last node sanity check
    (line 298): popcorn_getnodeinfo has been asked a second time. *)
Definition reached_final_check {T} (w : world T) : Prop := n_nodeinfo w = 2%nat.

(** The thread has printed its PASSED line. *)
Definition passed {T} (w : world T) : Prop :=
  exists tid nid, In (Print (MsgThreadPassed tid nid)) (trace w).

(** *** A run of tnd's thread in which nothing fails *)

(** What the first popcorn_getnodeinfo says about node [nid]. *)
Definition node_of (p : Platform) (nid : Z) : popcorn_node_status :=
  (getnodeinfo_ret p 0).2 (Z.to_nat nid).

(** One of the values of enum popcorn_arch_types. *)
Definition known_arch (a : Z) : Prop :=
  POPCORN_NODE_UNKNOWN <= a <= POPCORN_NODE_PPC64.

(** Nothing goes wrong for a thread from [source] to [sink]: every gettid
    gives an id, the node check finds the thread at the source and both
    nodes online and of a known architecture, every hop to the sink (the
    migrate calls number 0, 2, 4, ...) succeeds, and both ids index the
    two-element arch_types.  Nothing is asked of the hops back. *)
Definition no_failure (p : Platform) (source sink : Z) : Prop :=
  (forall k, gettid_ret p k <> -1) /\
  (forall k, migrate_ret p (2 * k) = 0) /\
  (getnodeinfo_ret p 0).1 = (0, source) /\
  status (node_of p source) <> NODE_OFFLINE /\
  status (node_of p sink) <> NODE_OFFLINE /\
  known_arch (arch (node_of p source)) /\
  known_arch (arch (node_of p sink)) /\
  0 <= source < 2 /\ 0 <= sink < 2.

(** The name printed for node [nid]: arch_sz[arch_types[nid]]. *)
Definition arch_name (p : Platform) (nid : Z) : option string :=
  nth (Z.to_nat (arch (node_of p nid) + 1)) arch_sz None.

(** What turn number [k] of the loop adds to the trace, newest first. *)
Definition turn (p : Platform) (source sink : Z) (k : nat) : list event :=
  [Sleep 1;
   Print (MsgTouchedSource (gettid_ret p 0) (arch_name p source));
   Migrate source;
   Print (MsgTouchedSink (gettid_ret p (S k)) (arch_name p sink));
   Migrate sink].

(** The trace of the first [n] turns. *)
Fixpoint turns (p : Platform) (source sink : Z) (n : nat) : list event :=
  match n with
  | O => []
  | S k => turn p source sink k ++ turns p source sink k
  end.

(** arch_types after node_sanity_check. *)
Definition arch_types_after (p : Platform) (source sink : Z) : list Z :=
  <[Z.to_nat sink := arch (node_of p sink) + 1]>
    (<[Z.to_nat source := arch (node_of p source) + 1]> [0; 0]).

(** The thread is at the head of the loop, about to start turn [k]: done is
    still 0, all_done and gcount are untouched, err and flag hold whatever
    the last turn left there. *)
Definition at_loop_head (p : Platform) (source sink ad g : Z) (k : nat)
    (w : world Tnd.mem) : Prop :=
  exists e f,
    w = World (Tnd.Mem (Tnd.Thread (gettid_ret p 0) source sink 0 e f
                                   (arch_types_after p source sink)) ad g)
              (turns p source sink k) (S k) (2 * k) 1 0.

Definition is_sleep (e : event) : bool :=
  match e with
  | Sleep _ => true
  | _ => false
  end.

(** Platforms for the examples: node i is online and of architecture
    i mod 2, every call succeeds, the thread id is 101. *)
Definition online (a : Z) : popcorn_node_status := {| status := 1; arch := a |}.

Definition good : Platform := {|
  pid := 100;
  gettid_ret := fun _ => 101;
  migrate_ret := fun _ => 0;
  getnodeinfo_ret := fun _ => (0, 0, fun i => online (Z.of_nat i mod 2));
  getthreadinfo_ret := fun _ => (0, {| current_nid := 0 |});
  malloc_ok := true;
  memalign_ret := fun _ => 0;
  fresh_tid := 7
|}.

(** [good], but the k-th migrate answers [mig k], the k-th gettid [tids k],
    and the k-th popcorn_getnodeinfo reports node [cur k] as current. *)
Definition platform (tids : nat -> Z) (mig : nat -> Z) (cur : nat -> Z) : Platform := {|
  pid := 100;
  gettid_ret := tids;
  migrate_ret := mig;
  getnodeinfo_ret := fun k => (0, cur k, fun i => online (Z.of_nat i mod 2));
  getthreadinfo_ret := fun _ => (0, {| current_nid := 0 |});
  malloc_ok := true;
  memalign_ret := fun _ => 0;
  fresh_tid := 7
|}.

(** The first migrate is refused with -EINVAL. *)
Definition migrate_refused : Platform :=
  platform (fun _ => 101) (fun _ => - EINVAL) (fun _ => 0).

(** The hop to the sink succeeds, the hop back answers -EAGAIN; the node
    table keeps saying that the thread is at the source. *)
Definition return_hop_offline : Platform :=
  platform (fun _ => 101) (fun k => if (k =? 1)%nat then - EAGAIN else 0) (fun _ => 0).

(** The same, and the thread is seen at the sink (node 1) afterwards. *)
Definition return_hop_offline_at_sink : Platform :=
  platform (fun _ => 101) (fun k => if (k =? 1)%nat then - EAGAIN else 0)
           (fun k => if (k =? 0)%nat then 0 else 1).

(** The thread id changes after the first gettid. *)
Definition tid_changes : Platform :=
  platform (fun k => if (k =? 0)%nat then 101 else 202) (fun _ => 0) (fun _ => 0).

(** *** What the checks of a travelling thread read *)

(** The k-th popcorn_getnodeinfo reports no error, [local] as the current
    node, and both nodes inside the table of 32 and online. *)
Definition node_online (p : Platform) (k : nat) (local remote : Z) : Prop :=
  let '(err, cur, tbl) := getnodeinfo_ret p k in
  err = 0 /\ cur = local /\
  0 <= local < 32 /\ 0 <= remote < 32 /\
  status (tbl (Z.to_nat local)) <> NODE_OFFLINE /\
  status (tbl (Z.to_nat remote)) <> NODE_OFFLINE.

(** The architectures the k-th popcorn_getnodeinfo reports for the two
    nodes index arch_sz: arch + 1 is in [0, 5). *)
Definition archs_printable (p : Platform) (k : nat) (local remote : Z) : Prop :=
  let '(err, cur, tbl) := getnodeinfo_ret p k in
  0 <= arch (tbl (Z.to_nat local)) + 1 < 5 /\
  0 <= arch (tbl (Z.to_nat remote)) + 1 < 5.

(** The k-th popcorn_getthreadinfo reports no error and [nid] as the node
    of the thread. *)
Definition thread_at (p : Platform) (k : nat) (nid : Z) : Prop :=
  let '(err, st) := getthreadinfo_ret p k in
  err = 0 /\ current_nid st = nid.

(** ft2c's thread gets as far as its first migrate. *)
Definition checks_pass (p : Platform) (t : Ft2c.thread) : Prop :=
  gettid_ret p 0 <> -1 /\
  node_online p 0 (Ft2c.source_nid t) (Ft2c.sink_nid t) /\
  archs_printable p 0 (Ft2c.source_nid t) (Ft2c.sink_nid t) /\
  thread_at p 0 (Ft2c.source_nid t).

(** Everything ft2c's thread tests on its way to the PASSED line. *)
Definition round_trip_ok (p : Platform) (t : Ft2c.thread) : Prop :=
  checks_pass p t /\
  migrate_ret p 0 = 0 /\
  Ft2c.done t = 0 /\
  gettid_ret p 1 <> -1 /\
  gettid_ret p 2 = gettid_ret p 0 /\
  node_online p 1 (Ft2c.source_nid t) (Ft2c.sink_nid t) /\
  archs_printable p 1 (Ft2c.source_nid t) (Ft2c.sink_nid t).

Definition is_migrate (e : event) : bool :=
  match e with
  | Migrate _ => true
  | _ => false
  end.

(** The migrate calls of [n] turns of tnd's loop, newest first. *)
Definition hops (source sink : Z) (n : nat) : list event :=
  concat (repeat [Migrate source; Migrate sink] n).

(** The two node arguments pass main's checks. *)
Definition valid_ids (a1 a2 : string) : Prop :=
  atoi a1 <> atoi a2 /\ in_range (atoi a1) /\ in_range (atoi a2).


(** [good], but the k-th posix_memalign fails with ENOMEM (12). *)
Definition alloc_fails_at (k : nat) : Platform := {|
  pid := 100;
  gettid_ret := fun _ => 101;
  migrate_ret := fun _ => 0;
  getnodeinfo_ret := fun _ => (0, 0, fun i => online (Z.of_nat i mod 2));
  getthreadinfo_ret := fun _ => (0, {| current_nid := 0 |});
  malloc_ok := true;
  memalign_ret := fun i => if (i =? k)%nat then 12 else 0;
  fresh_tid := 7
|}.

(** ** Tactics *)

Ltac eqb_hyps :=
  repeat match goal with
  | H : negb _ = false |- _ => apply negb_false_iff in H
  | H : negb _ = true |- _ => apply negb_true_iff in H
  | H : (_ =? _) = true |- _ => apply Z.eqb_eq in H
  | H : (_ =? _) = false |- _ => apply Z.eqb_neq in H
  end.

(** Follow a function body through all its branches. *)
Ltac run_body :=
  repeat match goal with
  | |- context [getnodeinfo_ret ?p ?k] =>
      destruct (getnodeinfo_ret p k) as [[? ?] ?]; cbn -[index seq]
  | |- context [getthreadinfo_ret ?p ?k] =>
      destruct (getthreadinfo_ret p k) as [? ?]; cbn -[index seq]
  | |- context [if ?b then _ else _] => destruct b eqn:?; cbn -[index seq]
  | |- context [match index ?a ?i with _ => _ end] =>
      destruct (index a i) eqn:?; cbn -[index seq]
  end.

(** [run_body], remembering what each platform call answered. *)
Ltac run_body_eq :=
  repeat match goal with
  | H : getnodeinfo_ret ?p ?k = _ |- context [getnodeinfo_ret ?p ?k] =>
      rewrite H; cbn -[index seq]
  | H : getthreadinfo_ret ?p ?k = _ |- context [getthreadinfo_ret ?p ?k] =>
      rewrite H; cbn -[index seq]
  | |- context [getnodeinfo_ret ?p ?k] =>
      destruct (getnodeinfo_ret p k) as [[? ?] ?] eqn:?; cbn -[index seq]
  | |- context [getthreadinfo_ret ?p ?k] =>
      destruct (getthreadinfo_ret p k) as [? ?] eqn:?; cbn -[index seq]
  | |- context [if ?b then _ else _] => destruct b eqn:?; cbn -[index seq]
  | |- context [match index ?a ?i with _ => _ end] =>
      destruct (index a i) eqn:?; cbn -[index seq]
  end.

Ltac unfold_monad :=
  unfold bind, call, when, ret, return_, printf, emit, update, get, gettid,
    migrate, popcorn_getnodeinfo, popcorn_getthreadinfo, load, undefined.

Ltac unfold_tnd :=
  unfold Tnd.set_tid, Tnd.set_done, Tnd.set_err, Tnd.set_flag,
    Tnd.set_arch_types, Tnd.incr_all_done, Tnd.on_thread.

(** Close a [thread_frame] goal on one path of a body. *)
Ltac frame_goals :=
  split; [reflexivity | repeat (first [apply grows_refl | apply grows_cons; [discriminate|]])].

(** ** The C library and the bit test *)

Lemma wrap_int_range z : INT_MIN <= wrap_int z <= INT_MAX.
Proof.
  unfold wrap_int, INT_MIN, INT_MAX.
  pose proof (Z.mod_pos_bound (z + 2 ^ 31) (2 ^ 32) ltac:(lia)). lia.
Qed.

Lemma atoi_range s : INT_MIN <= atoi s <= INT_MAX.
Proof. apply wrap_int_range. Qed.

(** A value fits a signed 32-bit int exactly when its bits from 31 up are
    all equal. *)
Lemma int_range_shiftr z :
  INT_MIN <= z <= INT_MAX <-> Z.shiftr z 31 = 0 \/ Z.shiftr z 31 = -1.
Proof.
  unfold INT_MIN, INT_MAX. rewrite Z.shiftr_div_pow2 by lia.
  pose proof (Z.div_mod z (2 ^ 31) ltac:(lia)).
  pose proof (Z.mod_pos_bound z (2 ^ 31) ltac:(lia)).
  split; intros; lia.
Qed.

(** The or of two ints is an int: the test of line 342 sees the same bits in
    [Z] as in 32 bits. *)
Lemma lor_int a b :
  INT_MIN <= a <= INT_MAX -> INT_MIN <= b <= INT_MAX ->
  INT_MIN <= Z.lor a b <= INT_MAX.
Proof.
  rewrite !int_range_shiftr, Z.shiftr_lor.
  intros [-> | ->] [-> | ->]; cbn; auto.
Qed.

Lemma in_range_test s k :
  (Z.lor s k <? 0) || (s >=? MAX_POPCORN_NODES) || (k >=? MAX_POPCORN_NODES) = false
  <-> in_range s /\ in_range k.
Proof.
  unfold in_range. rewrite !orb_false_iff, Z.ltb_ge, !Z.geb_leb, !Z.leb_gt.
  pose proof (Z.lor_neg s k). lia.
Qed.

(** ** Argument validation in main *)

Lemma no_task_events_prints ms : no_task_events (map Print ms).
Proof. induction ms; constructor; auto. Qed.

Lemma task_event_in e tr :
  In e tr -> is_task_event e = true -> ~ no_task_events tr.
Proof.
  intros Hin He Hno. unfold no_task_events in Hno.
  rewrite Forall_forall in Hno. apply list_elem_of_In, Hno in Hin. congruence.
Qed.

Lemma not_in_prints e ms : is_task_event e = true -> ~ In e (map Print ms).
Proof.
  intros He Hin. apply in_map_iff in Hin as (m & <- & _). discriminate.
Qed.

Lemma alloc_loop_extends p todo : forall i tr,
  exists evs, (Tnd.alloc_loop p todo i tr).2 = evs ++ tr.
Proof.
  induction todo as [|todo IH]; intros i tr; cbn.
  - now exists [].
  - destruct (nonzero (memalign_ret p i)); cbn.
    + now exists [Memalign].
    + destruct (IH (S i) (Memalign :: tr)) as [evs ->].
      exists (evs ++ [Memalign]). now rewrite <- app_assoc.
Qed.

Section Validation.
Variable p : Platform.
Variable argv : list string.
Variables a1 a2 : string.
Hypothesis Hpid : pid p <> -1.
Hypothesis H1 : argv !! 1%nat = Some a1.
Hypothesis H2 : argv !! 2%nat = Some a2.

Lemma banner_trace n :
  Print (MsgProcessId (pid p))
    :: (if negb (Z.of_nat (length argv) =? n) then [Print MsgUsage] else [])
  = map Print (banner p argv n).
Proof. unfold banner. now destruct (negb _). Qed.

Lemma ft2c_main_same :
  atoi a1 = atoi a2 ->
  Ft2c.main p argv = (Exited (-1), map Print (MsgSameNode :: banner p argv 3)).
Proof.
  intros Heq. unfold Ft2c.main. cbv zeta.
  rewrite (proj2 (Z.eqb_neq _ _) Hpid), H1, H2, banner_trace.
  now rewrite (proj2 (Z.eqb_eq _ _) Heq).
Qed.

Lemma ft2c_main_out_of_range :
  atoi a1 <> atoi a2 ->
  ~ (in_range (atoi a1) /\ in_range (atoi a2)) ->
  Ft2c.main p argv = (Exited (-1), map Print (MsgBadNodeId :: banner p argv 3)).
Proof.
  intros Hne Hout. unfold Ft2c.main. cbv zeta.
  rewrite (proj2 (Z.eqb_neq _ _) Hpid), H1, H2, banner_trace.
  rewrite (proj2 (Z.eqb_neq _ _) Hne).
  rewrite <- in_range_test in Hout.
  now destruct (_ || _ || _).
Qed.

Lemma ft2c_main_valid :
  atoi a1 <> atoi a2 ->
  in_range (atoi a1) -> in_range (atoi a2) ->
  ~ rejected (Ft2c.main p argv).
Proof.
  intros Hne Hs Hk [[code [Hex Hcode]] Hno]. revert Hex Hno.
  unfold Ft2c.main. cbv zeta.
  rewrite (proj2 (Z.eqb_neq _ _) Hpid), H1, H2, banner_trace.
  rewrite (proj2 (Z.eqb_neq _ _) Hne).
  rewrite (proj2 (in_range_test _ _) (conj Hs Hk)).
  destruct (nonzero (memalign_ret p 0)) eqn:Hm.
  - cbn. intros _. apply (task_event_in Memalign); [right; now left | reflexivity].
  - destruct (Ft2c.child_thread _ _) as [[ | | ] w]; try discriminate;
      (destruct (Ft2c.done (self w) =? 0); [discriminate|]);
      cbn; intros _;
      (apply (task_event_in (Free 0)); [right; now left | reflexivity]).
Qed.

Section Tnd.
Variable a3 : string.
Hypothesis H3 : argv !! 3%nat = Some a3.

Lemma tnd_main_same :
  atoi a1 = atoi a2 ->
  Tnd.main p argv = (Exited (-1), map Print (MsgSameNode :: banner p argv 4)).
Proof.
  intros Heq. unfold Tnd.main. cbv zeta.
  rewrite (proj2 (Z.eqb_neq _ _) Hpid), H1, H2, H3, banner_trace.
  now rewrite (proj2 (Z.eqb_eq _ _) Heq).
Qed.

Lemma tnd_main_out_of_range :
  atoi a1 <> atoi a2 ->
  ~ (in_range (atoi a1) /\ in_range (atoi a2)) ->
  Tnd.main p argv = (Exited (-1), map Print (MsgBadNodeId :: banner p argv 4)).
Proof.
  intros Hne Hout. unfold Tnd.main. cbv zeta.
  rewrite (proj2 (Z.eqb_neq _ _) Hpid), H1, H2, H3, banner_trace.
  rewrite (proj2 (Z.eqb_neq _ _) Hne).
  rewrite <- in_range_test in Hout.
  now destruct (_ || _ || _).
Qed.

Lemma tnd_main_valid :
  atoi a1 <> atoi a2 ->
  in_range (atoi a1) -> in_range (atoi a2) ->
  ~ rejected (Tnd.main p argv).
Proof.
  intros Hne Hs Hk [[code [Hex Hcode]] Hno]. revert Hex Hno.
  unfold Tnd.main. cbv zeta.
  rewrite (proj2 (Z.eqb_neq _ _) Hpid), H1, H2, H3, banner_trace.
  rewrite (proj2 (Z.eqb_neq _ _) Hne).
  rewrite (proj2 (in_range_test _ _) (conj Hs Hk)).
  unfold Tnd.__init_thread_params.
  destruct (_ && _); [discriminate|].
  pose proof (alloc_loop_extends p (Z.to_nat (atoi a3)) 0
                (Malloc :: map Print (banner p argv 4))) as [evs Hevs].
  destruct (Tnd.alloc_loop _ _ _ _) as [e tr]. cbn in Hevs. subst tr.
  destruct (nonzero e) eqn:He.
  - cbn. rewrite He. cbn. intros _. apply (task_event_in Malloc); [|reflexivity].
    right. apply in_or_app. right. now left.
  - cbn. destruct (atoi a3 <? 0); [discriminate|].
    destruct (0 <? atoi a3); [discriminate|].
    cbn. intros [= <-]. congruence.
Qed.
End Tnd.
End Validation.

Lemma ft2c_main_bad_pid p argv :
  pid p = -1 -> Ft2c.main p argv = (Exited (-1), [Print (MsgBadPid (pid p))]).
Proof. intros H. unfold Ft2c.main. cbv zeta. now rewrite (proj2 (Z.eqb_eq _ _) H). Qed.

Lemma tnd_main_bad_pid p argv :
  pid p = -1 -> Tnd.main p argv = (Exited (-1), [Print (MsgBadPid (pid p))]).
Proof. intros H. unfold Tnd.main. cbv zeta. now rewrite (proj2 (Z.eqb_eq _ _) H). Qed.

Lemma rejected_prints ms : rejected (Exited (-1), map Print ms).
Proof.
  split; [exists (-1); split; [reflexivity | lia] | apply no_task_events_prints].
Qed.

(** C3: when the source and the sink argument denote the same node id, main
    of either program ends with exit code -1 having done nothing but print:
    no storage for a task was requested and no thread was started; the last
    line printed is "Source Node ID must be different to Sink Node ID"
    (provided gettid gave main a process id).  The ids are the values atoi
    gives the arguments, which must be there for main to read them. *)
Theorem same_node_rejected (p : Platform) (argv : list string) (a1 a2 : string) :
  argv !! 1%nat = Some a1 -> argv !! 2%nat = Some a2 ->
  atoi a1 = atoi a2 ->
  (rejected (Ft2c.main p argv) /\
   (pid p <> -1 -> last_event (Ft2c.main p argv) = Some (Print MsgSameNode))) /\
  (forall a3, argv !! 3%nat = Some a3 ->
     rejected (Tnd.main p argv) /\
     (pid p <> -1 -> last_event (Tnd.main p argv) = Some (Print MsgSameNode))).
Proof.
  intros H1 H2 Heq. split; [|intros a3 H3]; split.
  - destruct (Z.eq_dec (pid p) (-1)) as [Hp|Hp].
    + rewrite ft2c_main_bad_pid by assumption.
      apply (rejected_prints [MsgBadPid (pid p)]).
    + erewrite ft2c_main_same by eassumption. apply rejected_prints.
  - intros Hp. now erewrite ft2c_main_same by eassumption.
  - destruct (Z.eq_dec (pid p) (-1)) as [Hp|Hp].
    + rewrite tnd_main_bad_pid by assumption.
      apply (rejected_prints [MsgBadPid (pid p)]).
    + erewrite tnd_main_same by eassumption. apply rejected_prints.
  - intros Hp. now erewrite tnd_main_same by eassumption.
Qed.

Lemma same_node_rejected_witness :
  (rejected (Ft2c.main good ["prog"; "3"; "3"; "2"]%string) /\
   (pid good <> -1 ->
    last_event (Ft2c.main good ["prog"; "3"; "3"; "2"]%string) = Some (Print MsgSameNode))) /\
  (forall a3, ["prog"; "3"; "3"; "2"]%string !! 3%nat = Some a3 ->
     rejected (Tnd.main good ["prog"; "3"; "3"; "2"]%string) /\
     (pid good <> -1 ->
      last_event (Tnd.main good ["prog"; "3"; "3"; "2"]%string) = Some (Print MsgSameNode))).
Proof.
  apply (same_node_rejected good ["prog"; "3"; "3"; "2"]%string "3" "3");
    reflexivity.
Defined.

(** C4, as stated, fails: with source and sink both 1 the run is rejected
    before any task is created although neither id lies outside
    [0, MAX_POPCORN_NODES). *)
Lemma range_rejection_not_exact :
  ~ (rejected (Ft2c.main good ["ft2c"; "1"; "1"]%string)
     <-> ~ (in_range (atoi "1") /\ in_range (atoi "1"))).
Proof.
  intros [Hrej _]. apply Hrej.
  - apply (rejected_prints [MsgSameNode; MsgProcessId 100]).
  - split; vm_compute; split; congruence.
Qed.

(** C4, amended: for a main that got its process id and finds its
    arguments, the run is rejected before any task is created exactly when
    the two node ids are equal or one of them lies outside
    [0, MAX_POPCORN_NODES); the sign test on (source | sink) holds exactly
    when one of the two ids is negative, and a pair with a negative id is
    rejected. *)
Theorem validation_exact (p : Platform) (argv : list string) (a1 a2 : string) :
  pid p <> -1 ->
  argv !! 1%nat = Some a1 -> argv !! 2%nat = Some a2 ->
  let bad := atoi a1 = atoi a2 \/ ~ (in_range (atoi a1) /\ in_range (atoi a2)) in
  (rejected (Ft2c.main p argv) <-> bad) /\
  (forall a3, argv !! 3%nat = Some a3 -> (rejected (Tnd.main p argv) <-> bad)) /\
  (Z.lor (atoi a1) (atoi a2) < 0 <-> atoi a1 < 0 \/ atoi a2 < 0) /\
  (atoi a1 < 0 \/ atoi a2 < 0 -> bad).
Proof.
  intros Hp H1 H2 bad. subst bad.
  assert (Hcases : forall P : Prop,
    (atoi a1 = atoi a2 -> P) ->
    (atoi a1 <> atoi a2 -> ~ (in_range (atoi a1) /\ in_range (atoi a2)) -> P) ->
    (atoi a1 <> atoi a2 -> in_range (atoi a1) -> in_range (atoi a2) -> P) -> P).
  { intros P Ha Hb Hc. unfold in_range, MAX_POPCORN_NODES in *.
    destruct (Z.eq_dec (atoi a1) (atoi a2)); [auto|].
    destruct (Z_lt_dec (atoi a1) 0); [apply Hb; lia|].
    destruct (Z_lt_dec (atoi a2) 0); [apply Hb; lia|].
    destruct (Z_lt_dec (atoi a1) 32); [|apply Hb; lia].
    destruct (Z_lt_dec (atoi a2) 32); [|apply Hb; lia].
    apply Hc; lia. }
  split; [split | split; [intros a3 H3; split | split]].
  - intros Hrej. apply Hcases; intros; auto.
    exfalso. eapply ft2c_main_valid; eauto.
  - intros Hbad. apply Hcases; intros.
    + erewrite ft2c_main_same by eassumption. apply rejected_prints.
    + erewrite ft2c_main_out_of_range by eassumption. apply rejected_prints.
    + tauto.
  - intros Hrej. apply Hcases; intros; auto.
    exfalso. eapply tnd_main_valid; eauto.
  - intros Hbad. apply Hcases; intros.
    + erewrite tnd_main_same by eassumption. apply rejected_prints.
    + erewrite tnd_main_out_of_range by eassumption. apply rejected_prints.
    + tauto.
  - apply Z.lor_neg.
  - unfold in_range. lia.
Qed.

Lemma validation_exact_witness :
  let argv := ["prog"; "-4"; "7"; "2"]%string in
  let bad := atoi "-4" = atoi "7" \/ ~ (in_range (atoi "-4") /\ in_range (atoi "7")) in
  (rejected (Ft2c.main good argv) <-> bad) /\
  (forall a3, argv !! 3%nat = Some a3 -> (rejected (Tnd.main good argv) <-> bad)) /\
  (Z.lor (atoi "-4") (atoi "7") < 0 <-> atoi "-4" < 0 \/ atoi "7" < 0) /\
  (atoi "-4" < 0 \/ atoi "7" < 0 -> bad).
Proof.
  apply (validation_exact good ["prog"; "-4"; "7"; "2"]%string "-4" "7");
    [vm_compute; congruence | reflexivity | reflexivity].
Defined.

(** ** The exit code of ft2c *)

(** X6: once main has started the thread, the only exit code it can return is
    0: ft2c_errno holds the 0 of posix_memalign, and pthread_join stores the
    thread's NULL in errno_ptr, not in ft2c_errno. *)
Lemma ft2c_exit_code_of_started_run p argv code tr :
  Ft2c.main p argv = (Exited code, tr) -> In (Create 0) tr -> code = 0.
Proof.
  unfold Ft2c.main. cbv zeta.
  destruct (pid p =? -1).
  { intros [= <- <-] Hin.
    destruct (not_in_prints (Create 0) [MsgBadPid (pid p)] eq_refl Hin). }
  destruct (argv !! 1%nat) as [a1|]; [|discriminate].
  destruct (argv !! 2%nat) as [a2|]; [|discriminate].
  rewrite banner_trace.
  destruct (atoi a1 =? atoi a2).
  { intros [= <- <-] Hin.
    destruct (not_in_prints (Create 0) (MsgSameNode :: banner p argv 3) eq_refl Hin). }
  destruct (_ || _ || _).
  { intros [= <- <-] Hin.
    destruct (not_in_prints (Create 0) (MsgBadNodeId :: banner p argv 3) eq_refl Hin). }
  destruct (nonzero (memalign_ret p 0)) eqn:Hm.
  { intros [= <- <-] [H|[H|Hin]]; try discriminate.
    destruct (not_in_prints (Create 0) (banner p argv 3) eq_refl Hin). }
  unfold nonzero in Hm. apply negb_false_iff, Z.eqb_eq in Hm.
  destruct (Ft2c.child_thread _ _) as [[ | | ] w]; try discriminate;
    (destruct (Ft2c.done (self w) =? 0); [discriminate|]);
    intros [= <- <-] _; assumption.
Qed.

(** C1: the first migrate of the thread is refused with -EINVAL; the thread
    prints its "Invalid Migration Destination" failure and never its PASSED
    line, and main still prints TEST PASSED and returns 0. *)
Theorem ft2c_exit_code_ignores_failed_task :
  Ft2c.main migrate_refused ["ft2c"; "0"; "1"]%string =
  (Exited 0,
   [Print (MsgTestPassed 0); Free 0; Print (MsgThreadExit 0 101 0); Join 0;
    Print (MsgInvalidDest 101 1); Migrate 1;
    Print (MsgRemoteArch 1 (Some "x86-64"%string));
    Print (MsgLocalArch 0 (Some "arm64"%string));
    Print (MsgThreadIdD 101); BarrierWait; BarrierWait;
    Create 0; BarrierInit 2; Memalign; Print (MsgProcessId 100)]).
Proof. vm_compute. reflexivity. Qed.

(** C5: the hop back answers -EAGAIN.  ft2c stores the answer and never
    looks at it: if the platform still reports the thread at the source the
    thread prints PASSED, if it reports it at the sink the thread fails in
    the node sanity check with "We should be at Node 0", and in both runs
    no migration diagnostic is printed and main returns 0.  In tnd the
    thread keeps the -EAGAIN in its err field and goes on to the next
    turn. *)
Theorem return_hop_error_is_ignored :
  Ft2c.main return_hop_offline ["ft2c"; "0"; "1"]%string =
  (Exited 0,
   [Print (MsgTestPassed 0); Free 0; Print (MsgThreadExit 0 101 0); Join 0;
    Print (MsgThreadPassed 101 0);
    Print (MsgRemoteArch 1 (Some "x86-64"%string));
    Print (MsgLocalArch 0 (Some "arm64"%string));
    Print (MsgThreadId 101); Print MsgArrivedBack; Migrate 0; Migrate 1;
    Print (MsgRemoteArch 1 (Some "x86-64"%string));
    Print (MsgLocalArch 0 (Some "arm64"%string));
    Print (MsgThreadIdD 101); BarrierWait; BarrierWait;
    Create 0; BarrierInit 2; Memalign; Print (MsgProcessId 100)])
  /\
  Ft2c.main return_hop_offline_at_sink ["ft2c"; "0"; "1"]%string =
  (Exited 0,
   [Print (MsgTestPassed 0); Free 0; Print (MsgThreadExit 0 101 0); Join 0;
    Print (MsgWrongNode 0 1); Print (MsgThreadId 101);
    Print MsgArrivedBack; Migrate 0; Migrate 1;
    Print (MsgRemoteArch 1 (Some "x86-64"%string));
    Print (MsgLocalArch 0 (Some "arm64"%string));
    Print (MsgThreadIdD 101); BarrierWait; BarrierWait;
    Create 0; BarrierInit 2; Memalign; Print (MsgProcessId 100)])
  /\
  Tnd.child_thread return_hop_offline 1 (enter (Tnd.Mem (Tnd.init_thread 0 1) 0 0) []) =
  (Next tt,
   World (Tnd.Mem (Tnd.Thread 101 0 1 0 (- EAGAIN) 101 [1; 2]) 0 0)
         [Sleep 1; Print (MsgTouchedSource 101 (Some "arm64"%string)); Migrate 0;
          Print (MsgTouchedSink 101 (Some "x86-64"%string)); Migrate 1]
         2 2 1 0).
Proof. repeat split; vm_compute; reflexivity. Qed.

(** C8: ft2c with three arguments after the program name prints its usage
    line and then runs the test to the end, returning 0; so does tnd with
    four (here with no thread to start); with an argument missing main
    hands a null pointer to atoi. *)
Theorem wrong_argc_is_not_fatal :
  Ft2c.main good ["ft2c"; "0"; "1"; "9"]%string =
  (Exited 0,
   [Print (MsgTestPassed 0); Free 0; Print (MsgThreadExit 0 101 0); Join 0;
    Print (MsgThreadPassed 101 0);
    Print (MsgRemoteArch 1 (Some "x86-64"%string));
    Print (MsgLocalArch 0 (Some "arm64"%string));
    Print (MsgThreadId 101); Print MsgArrivedBack; Migrate 0; Migrate 1;
    Print (MsgRemoteArch 1 (Some "x86-64"%string));
    Print (MsgLocalArch 0 (Some "arm64"%string));
    Print (MsgThreadIdD 101); BarrierWait; BarrierWait;
    Create 0; BarrierInit 2; Memalign; Print (MsgProcessId 100);
    Print MsgUsage])
  /\
  Tnd.main good ["tnd"; "0"; "1"; "0"; "9"]%string =
  (Exited 0,
   [Print (MsgTestPassed 0); BarrierWait; BarrierWait; BarrierInit 1; Malloc;
    Print (MsgProcessId 100); Print MsgUsage])
  /\
  Ft2c.main good ["ft2c"; "0"]%string =
  (UndefinedBehaviour, [Print (MsgProcessId 100); Print MsgUsage]).
Proof. repeat split; vm_compute; reflexivity. Qed.

(** ** The two-element arch_types of tnd *)

(** A store to arch_types is inside the array of a thread that main has set
    up exactly for the indices 0 and 1. *)
Lemma store_arch_types_defined s k ad tr i v :
  (exists w, @Tnd.store_arch_types unit i v (enter (Tnd.Mem (Tnd.init_thread s k) ad 0) tr)
             = (Next tt, w))
  <-> 0 <= i < 2.
Proof.
  unfold Tnd.store_arch_types, bind, get, enter, update, undefined. cbn.
  change (Z.of_nat 2) with 2.
  destruct (Z.leb_spec 0 i), (Z.ltb_spec i 2); cbn;
    (split; [intros [w Hw]; (discriminate || lia) | intros; (lia || eauto)]).
Qed.

(** C9: tnd accepts source 0 and sink 5 and starts the thread; with both
    nodes online, node_sanity_check then stores to arch_types[5] of the
    two-element array. *)
Theorem arch_types_store_out_of_bounds :
  Tnd.main good ["tnd"; "0"; "5"; "1"]%string =
  (Hangs, [BarrierWait; Create 0; BarrierInit 2; Memalign; Malloc;
           Print (MsgProcessId 100)])
  /\
  call (Tnd.node_sanity_check good 0 5) (enter (Tnd.Mem (Tnd.init_thread 0 5) 0 0) []) =
  (@Undefined unit Z,
   World (Tnd.Mem (Tnd.Thread 0 0 5 0 0 0 [1; 0]) 0 0) [] 0 0 1 0)
  /\
  ~ (0 <= 5 < Z.of_nat (length (Tnd.arch_types (Tnd.init_thread 0 5)))).
Proof. repeat split; vm_compute; try reflexivity. intros [_ H]. discriminate. Qed.

(** ** The identity of the travelling thread of ft2c *)

(** X1: in ft2c, a thread that comes to its last node sanity check, or
    prints PASSED, got from the gettid after the hop back (the third call)
    the id it got before the first hop; and a thread that made the hop back
    and then got an id that differs from the first one ends there: its last
    line is "Thread ID %d does not match original TID %d", done is set, the
    last check is not reached and PASSED is not printed.  (gettid answering
    -1 is no id; that case has its own diagnostic.) *)
Theorem round_trip_identity (p : Platform) (t : Ft2c.thread) :
  let w := (Ft2c.child_thread p (enter t [])).2 in
  let source_tid := gettid_ret p 0 in
  let temp_tid := gettid_ret p 2 in
  (reached_final_check w \/ passed w -> temp_tid = source_tid) /\
  (hopped_back w -> temp_tid <> -1 -> temp_tid <> source_tid ->
     head (trace w) = Some (Print (MsgTidMismatch temp_tid source_tid)) /\
     Ft2c.done (self w) = 1 /\ ~ reached_final_check w /\ ~ passed w).
Proof.
  unfold Ft2c.child_thread, Ft2c.node_sanity_check, Ft2c.thread_sanity_check, enter.
  unfold_monad. unfold reached_final_check, hopped_back, passed.
  cbn -[index seq].
  run_body; eqb_hyps.
  all: split;
    [ intros [Hr | (tid & nid & Hin)];
      [ first [discriminate Hr | congruence]
      | first [congruence | cbn in Hin; intuition discriminate] ]
    | intros Hb Hm1 Hne; first [discriminate Hb | congruence | idtac] ].
  all: repeat split; try reflexivity; try discriminate.
  all: intros (tid & nid & Hin); cbn in Hin; intuition discriminate.
Qed.

Lemma round_trip_identity_witness :
  gettid_ret good 2 = gettid_ret good 0 /\
  head (trace (Ft2c.child_thread tid_changes (enter (Ft2c.Thread 7 0 1 0) [])).2)
  = Some (Print (MsgTidMismatch 202 101)).
Proof.
  split.
  - apply (proj1 (round_trip_identity good (Ft2c.Thread 7 0 1 0))).
    left. reflexivity.
  - apply (proj2 (round_trip_identity tid_changes (Ft2c.Thread 7 0 1 0)));
      [reflexivity | vm_compute; congruence | vm_compute; congruence].
Defined.

(** tnd has no such check: its loop calls gettid once per turn, at the
    sink, and compares the answer with -1 only; a thread whose id changes
    goes on to the next turn. *)
Lemma tnd_identity_not_compared :
  Tnd.child_thread tid_changes 1 (enter (Tnd.Mem (Tnd.init_thread 0 1) 0 0) []) =
  (Next tt,
   World (Tnd.Mem (Tnd.Thread 101 0 1 0 0 202 [1; 2]) 0 0)
         [Sleep 1; Print (MsgTouchedSource 101 (Some "arm64"%string)); Migrate 0;
          Print (MsgTouchedSink 202 (Some "x86-64"%string)); Migrate 1]
         2 2 1 0).
Proof. vm_compute. reflexivity. Qed.

(** ** Threads never die *)


Lemma index_arch_sz a :
  known_arch a ->
  index arch_sz (a + 1) = Some (nth (Z.to_nat (a + 1)) arch_sz None).
Proof.
  unfold known_arch, POPCORN_NODE_UNKNOWN, POPCORN_NODE_PPC64. intros H.
  assert (a = -1 \/ a = 0 \/ a = 1 \/ a = 2) as [-> | [-> | [-> | ->]]] by lia;
    reflexivity.
Qed.

Lemma index_pnodes (tbl : nat -> popcorn_node_status) i :
  0 <= i < 32 -> index (map tbl (seq 0 32)) i = Some (tbl (Z.to_nat i)).
Proof.
  intros Hi. unfold index.
  rewrite length_map, length_seq.
  destruct (Z.leb_spec 0 i), (Z.ltb_spec i (Z.of_nat 32)); try lia. cbn [andb].
  change (map tbl (seq 0 32)) with (tbl <$> seq 0 32).
  rewrite list_lookup_fmap, lookup_seq_lt by lia. reflexivity.
Qed.

Section NeverDie.
Variable p : Platform.
Variables source sink ad g : Z.
Hypothesis Hok : no_failure p source sink.

Lemma arch_types_after_index :
  index (arch_types_after p source sink) source = Some (arch (node_of p source) + 1) /\
  index (arch_types_after p source sink) sink = Some (arch (node_of p sink) + 1).
Proof.
  destruct Hok as (_ & _ & _ & _ & _ & _ & _ & Hs & Hk).
  unfold arch_types_after.
  assert (source = 0 \/ source = 1) as [-> | ->] by lia;
    assert (sink = 0 \/ sink = 1) as [-> | ->] by lia; split; reflexivity.
Qed.

Lemma child_thread_entry_ok :
  exists w,
    Tnd.child_thread_entry p (enter (Tnd.Mem (Tnd.init_thread source sink) ad g) [])
    = (Next (gettid_ret p 0, sink, source), w)
    /\ at_loop_head p source sink ad g 0 w.
Proof.
  destruct Hok as (Htid & _ & Hinfo & Hs_on & Hk_on & _ & _ & Hs & Hk).
  unfold at_loop_head, arch_types_after, node_of in *.
  unfold Tnd.child_thread_entry, Tnd.node_sanity_check, Tnd.store_arch_types, enter.
  unfold_monad.
  destruct (getnodeinfo_ret p 0) as [[e c] tbl] eqn:Hret. cbn in Hinfo, Hs_on, Hk_on.
  injection Hinfo as -> ->. cbn -[index seq].
  rewrite (proj2 (Z.eqb_neq _ _) (Htid 0%nat)). cbn -[index seq].
  rewrite Hret. cbn -[index seq].
  rewrite Z.eqb_refl. cbn -[index seq].
  apply Z.eqb_neq in Hs_on, Hk_on.
  rewrite ?index_pnodes by lia. cbn -[index seq].
  rewrite Hs_on. cbn -[index seq].
  rewrite ?index_pnodes by lia. cbn -[index seq].
  rewrite Hk_on. cbn -[index seq].
  rewrite ?index_pnodes by lia. cbn -[index seq].
  assert (source = 0 \/ source = 1) as [-> | ->] by lia;
    assert (sink = 0 \/ sink = 1) as [-> | ->] by lia;
    cbn; eauto.
Qed.

Lemma loop_body_ok k w :
  at_loop_head p source sink ad g k w ->
  exists w',
    Tnd.loop_body p (gettid_ret p 0) sink source w = (Next tt, w')
    /\ at_loop_head p source sink ad g (S k) w'.
Proof.
  destruct Hok as (Htid & Hmig & _ & _ & _ & Hs_arch & Hk_arch & _ & _).
  destruct arch_types_after_index as [Hsrc Hsnk].
  intros (e & f & ->).
  unfold Tnd.loop_body. unfold_monad. unfold_tnd.
  cbn -[index arch_types_after Nat.mul].
  rewrite (Hmig k). cbn -[index arch_types_after Nat.mul].
  rewrite (proj2 (Z.eqb_neq _ _) (Htid (S k))).
  cbn -[index arch_types_after Nat.mul].
  repeat (first [rewrite Hsnk | rewrite Hsrc | rewrite index_arch_sz by assumption];
          cbn -[index arch_types_after Nat.mul]).
  eexists. split; [reflexivity|].
  exists (migrate_ret p (S (2 * k))), (gettid_ret p (S k)).
  unfold arch_name. f_equal. lia.
Qed.

Lemma loop_ok n : forall k w,
  at_loop_head p source sink ad g k w ->
  exists w',
    Tnd.loop p n (gettid_ret p 0) sink source w = (Next tt, w')
    /\ at_loop_head p source sink ad g (k + n) w'.
Proof.
  induction n as [|n IH]; intros k w Hw; cbn.
  - exists w. now rewrite Nat.add_0_r.
  - destruct (loop_body_ok k w Hw) as (w1 & Hb & Hw1).
    destruct (IH (S k) w1 Hw1) as (w2 & Hl & Hw2).
    exists w2. unfold bind at 1. rewrite Hb.
    split; [assumption|]. now rewrite Nat.add_succ_r.
Qed.
End NeverDie.

Lemma turns_no_pass p source sink n tid nid :
  ~ In (Print (MsgThreadPassed tid nid)) (turns p source sink n).
Proof.
  induction n as [|n IH]; cbn; [tauto|].
  intros [H|[H|[H|[H|[H|H]]]]]; try discriminate. auto.
Qed.

Lemma turns_sleeps p source sink n :
  List.filter is_sleep (turns p source sink n) = repeat (Sleep 1) n.
Proof.
  induction n as [|n IH]; cbn; [reflexivity|]. now rewrite IH.
Qed.

(** C7: in tnd, a thread for which nothing fails is, for every n, still in
    its loop after n turns (child_thread has not returned): its done flag is
    still 0, all_done and gcount are untouched, it has made 2 n migrate calls, out
    and back in every turn, with one sleep(1) per turn, and has never
    printed a PASSED line. *)
Theorem never_dies (p : Platform) (source sink ad g : Z) (n : nat) :
  no_failure p source sink ->
  exists w,
    Tnd.child_thread p n (enter (Tnd.Mem (Tnd.init_thread source sink) ad g) [])
    = (Next tt, w) /\
    Tnd.done (Tnd.current_thread (self w)) = 0 /\
    Tnd.all_done (self w) = ad /\
    Tnd.gcount (self w) = g /\
    trace w = turns p source sink n /\
    List.filter is_sleep (trace w) = repeat (Sleep 1) n /\
    n_migrate w = (2 * n)%nat /\
    ~ passed w.
Proof.
  intros Hok.
  destruct (child_thread_entry_ok p source sink ad g Hok) as (w0 & Hentry & Hw0).
  destruct (loop_ok p source sink ad g Hok n 0%nat w0 Hw0) as (w & Hloop & e & f & Hw).
  exists w. split.
  - unfold Tnd.child_thread, bind. rewrite Hentry. exact Hloop.
  - subst w. cbn [self trace n_migrate Tnd.current_thread Tnd.done Tnd.all_done Tnd.gcount].
    repeat split; auto using turns_sleeps.
    intros (tid & nid & Hin). now apply turns_no_pass in Hin.
Qed.

Lemma never_dies_witness :
  exists w,
    Tnd.child_thread good 3 (enter (Tnd.Mem (Tnd.init_thread 0 1) 0 0) [])
    = (Next tt, w) /\
    Tnd.done (Tnd.current_thread (self w)) = 0 /\
    Tnd.all_done (self w) = 0 /\
    Tnd.gcount (self w) = 0 /\
    trace w = turns good 0 1 3 /\
    List.filter is_sleep (trace w) = repeat (Sleep 1) 3 /\
    n_migrate w = (2 * 3)%nat /\
    ~ passed w.
Proof.
  apply (never_dies good 0 1 0 0 3).
  unfold no_failure, known_arch. cbn.
  repeat split; intros; try discriminate; try reflexivity.
Defined.




(** ** What tnd's thread never does *)

Lemma grows_trans P a b c : grows P a b -> grows P b c -> grows P a c.
Proof. intros Hab Hbc. induction Hbc; [assumption | now constructor]. Qed.

Lemma thread_frame_trans w1 w2 w3 :
  thread_frame w1 w2 -> thread_frame w2 w3 -> thread_frame w1 w3.
Proof.
  intros [Hg1 Ht1] [Hg2 Ht2]. split; [congruence | eapply grows_trans; eauto].
Qed.

Lemma child_thread_entry_frame p w :
  thread_frame w (Tnd.child_thread_entry p w).2.
Proof.
  unfold thread_frame.
  unfold Tnd.child_thread_entry, Tnd.node_sanity_check, Tnd.store_arch_types.
  unfold_monad. unfold_tnd. cbn -[index seq].
  run_body; frame_goals.
Qed.

Lemma loop_body_frame p source_tid rnode snode w :
  thread_frame w (Tnd.loop_body p source_tid rnode snode w).2.
Proof.
  unfold thread_frame, Tnd.loop_body.
  unfold_monad. unfold_tnd. cbn -[index seq].
  run_body; frame_goals.
Qed.

Lemma loop_frame p turns source_tid rnode snode : forall w,
  thread_frame w (Tnd.loop p turns source_tid rnode snode w).2.
Proof.
  induction turns as [|n IH]; intros w; cbn.
  - split; [reflexivity | constructor].
  - unfold bind at 1.
    pose proof (loop_body_frame p source_tid rnode snode w) as Hb.
    destruct (Tnd.loop_body p source_tid rnode snode w) as [[[] | [] | ] w1];
      cbn in *; try assumption.
    eapply thread_frame_trans; [exact Hb | apply IH].
Qed.

(** Whatever the platform answers and however long it runs, tnd's thread
    leaves gcount as it is and never calls pthread_barrier_wait. *)
Lemma child_thread_frame p turns w :
  thread_frame w (Tnd.child_thread p turns w).2.
Proof.
  unfold Tnd.child_thread, bind.
  pose proof (child_thread_entry_frame p w) as He.
  destruct (Tnd.child_thread_entry p w) as [[[[tid r] s] | [] | ] w1];
    cbn in *; try assumption.
  eapply thread_frame_trans; [exact He | apply loop_frame].
Qed.

(** ** The start-up barrier *)

(** X7: the first thing ft2c's child_thread does after gettid is to wait on
    the barrier: whatever the platform answers, the oldest event of its trace is
    the wait. *)
Lemma ft2c_child_waits_first p t :
  last (trace (Ft2c.child_thread p (enter t [])).2) = Some BarrierWait.
Proof.
  unfold Ft2c.child_thread, Ft2c.node_sanity_check, Ft2c.thread_sanity_check, enter.
  unfold_monad. cbn -[index seq].
  run_body; reflexivity.
Qed.


(** X17: in tnd no thread ever waits on the barrier of nthreads + 1 parties, so
    with one thread or more main never comes out of its first wait. *)
Lemma tnd_main_stuck nthreads s :
  (1 <= nthreads)%nat ->
  TndSched.reachable nthreads s ->
  TndSched.not_past_barrier1 (TndSched.mpc s).
Proof.
  intros Hn Hr.
  assert (Hinv : match TndSched.mpc s with
                 | TndSched.M_create _ | TndSched.M_barrier1 => TndSched.waiting s = 0%nat
                 | TndSched.M_waiting1 => TndSched.waiting s = 1%nat
                 | _ => False
                 end).
  { induction Hr as [|s s' Hr IH Hstep]; [reflexivity|].
    destruct Hstep; unfold TndSched.barrier_count in *; cbn in *;
      try assumption; try contradiction; lia. }
  destruct (TndSched.mpc s); cbn; auto.
Qed.

(** C10: in tnd, main sets gcount to 0 and nothing writes it afterwards:
    child_thread, whatever the platform answers and however many turns it
    makes, leaves it as it is.  So with one thread or more, in every state
    main and the threads can reach gcount is 0 and gcount < nthreads holds,
    main has not left the loop while(gcount < nthreads), and has reached
    neither the join loop nor the final report. *)
Theorem coordinator_never_joins (nthreads : nat) (s : TndSched.state) :
  (1 <= nthreads)%nat ->
  TndSched.reachable nthreads s ->
  (forall p turns w,
     Tnd.gcount (self (Tnd.child_thread p turns w).2) = Tnd.gcount (self w)) /\
  TndSched.gcount s = 0 /\
  TndSched.gcount s < Z.of_nat nthreads /\
  TndSched.not_past_gcount_poll (TndSched.mpc s) /\
  ~ TndSched.reached_join (TndSched.mpc s).
Proof.
  intros Hn Hr.
  split; [intros p turns w; apply child_thread_frame|].
  assert (Hinv : TndSched.gcount s = 0
                 /\ TndSched.not_past_gcount_poll (TndSched.mpc s)).
  { induction Hr as [|s s' Hr [Hg Hm] Hstep]; [split; reflexivity|].
    destruct Hstep; cbn in *; subst; try (split; [reflexivity | tauto]); try tauto.
    lia. }
  destruct Hinv as [Hg Hm]. rewrite Hg.
  repeat split; try lia; try assumption.
  destruct (TndSched.mpc s); cbn in *; tauto.
Qed.

Lemma coordinator_never_joins_witness :
  (forall p turns w,
     Tnd.gcount (self (Tnd.child_thread p turns w).2) = Tnd.gcount (self w)) /\
  TndSched.gcount (TndSched.State (TndSched.M_create 1) [TndSched.T_entry] 0 0 0) = 0 /\
  TndSched.gcount (TndSched.State (TndSched.M_create 1) [TndSched.T_entry] 0 0 0) < Z.of_nat 1 /\
  TndSched.not_past_gcount_poll (TndSched.M_create 1) /\
  ~ TndSched.reached_join (TndSched.M_create 1).
Proof.
  apply (coordinator_never_joins 1
           (TndSched.State (TndSched.M_create 1) [TndSched.T_entry] 0 0 0)).
  - lia.
  - apply (TndSched.reach_step 1 (TndSched.init 1)).
    + apply TndSched.reach_init.
    + apply (TndSched.main_create 1 0 [TndSched.T_absent] 0 0 0). lia.
Defined.

(** C6: tnd with two threads: main creates threads[0], and before main
    creates threads[1] thread 0 passes its node sanity check and calls
    migrate.  Nothing makes it wait: child_thread of tnd never calls
    pthread_barrier_wait, whatever the platform answers, and run on its own
    from its creation it goes straight to migrate(1). *)
Theorem tnd_thread_migrates_during_creation :
  (exists s,
     TndSched.reachable 2 s /\
     TndSched.mpc s = TndSched.M_create 1 /\
     TndSched.tasks s = [TndSched.T_at_sink; TndSched.T_absent] /\
     TndSched.waiting s = 0%nat) /\
  (forall p turns w,
     grows (fun e => e <> BarrierWait) (trace w) (trace (Tnd.child_thread p turns w).2)) /\
  trace (Tnd.child_thread good 1 (enter (Tnd.Mem (Tnd.init_thread 0 1) 0 0) [])).2 =
  [Sleep 1; Print (MsgTouchedSource 101 (Some "arm64"%string)); Migrate 0;
   Print (MsgTouchedSink 101 (Some "x86-64"%string)); Migrate 1].
Proof.
  split; [|split; [intros p turns w; apply child_thread_frame | reflexivity]].
  exists (TndSched.State (TndSched.M_create 1)
            [TndSched.T_at_sink; TndSched.T_absent] 0 0 0).
  split; [|repeat split].
  apply (TndSched.reach_step 2
           (TndSched.State (TndSched.M_create 1)
              [TndSched.T_migrate_out; TndSched.T_absent] 0 0 0));
    [|exact (TndSched.task_migrated 2 (TndSched.M_create 1) 0
               [TndSched.T_migrate_out; TndSched.T_absent] 0 0 0 eq_refl)].
  apply (TndSched.reach_step 2
           (TndSched.State (TndSched.M_create 1)
              [TndSched.T_sanity; TndSched.T_absent] 0 0 0));
    [|exact (TndSched.task_sanity_ok 2 (TndSched.M_create 1) 0
               [TndSched.T_sanity; TndSched.T_absent] 0 0 0 eq_refl)].
  apply (TndSched.reach_step 2
           (TndSched.State (TndSched.M_create 1)
              [TndSched.T_entry; TndSched.T_absent] 0 0 0));
    [|exact (TndSched.task_tid_ok 2 (TndSched.M_create 1) 0
               [TndSched.T_entry; TndSched.T_absent] 0 0 0 eq_refl)].
  apply (TndSched.reach_step 2 (TndSched.init 2)); [apply TndSched.reach_init|].
  apply (TndSched.main_create 2 0 [TndSched.T_absent; TndSched.T_absent] 0 0 0). lia.
Qed.

(** ** Further properties of ft2c's thread *)

Lemma index_bounds {A} (a : list A) i :
  (exists x, index a i = Some x) <-> 0 <= i < Z.of_nat (length a).
Proof.
  unfold index.
  destruct (Z.leb_spec 0 i), (Z.ltb_spec i (Z.of_nat (length a))); cbn [andb];
    split; try lia; try (intros [x Hx]; discriminate).
  intros _. destruct (lookup_lt_is_Some_2 a (Z.to_nat i)) as [x Hx]; [lia | eauto].
Qed.

Lemma index_pnodes_some (tbl : nat -> popcorn_node_status) i x :
  index (map tbl (seq 0 32)) i = Some x -> 0 <= i < 32 /\ x = tbl (Z.to_nat i).
Proof.
  intros H.
  assert (Hb : 0 <= i < 32).
  { pose proof (proj1 (index_bounds (map tbl (seq 0 32)) i) (ex_intro _ x H)) as Hb.
    rewrite length_map, length_seq in Hb. lia. }
  split; [assumption|]. rewrite index_pnodes in H by assumption. congruence.
Qed.

Lemma index_pnodes_none (tbl : nat -> popcorn_node_status) i :
  index (map tbl (seq 0 32)) i = None -> ~ 0 <= i < 32.
Proof. intros H Hb. rewrite index_pnodes in H by assumption. discriminate. Qed.

Lemma index_arch_sz_some k o : index arch_sz k = Some o -> 0 <= k < 5.
Proof. intros H. apply (proj1 (index_bounds arch_sz k)). eauto. Qed.

Lemma index_arch_sz_none k : index arch_sz k = None -> ~ 0 <= k < 5.
Proof.
  intros H Hb. destruct (proj2 (index_bounds arch_sz k) Hb) as [x Hx]. congruence.
Qed.

(** Turn what a path has found out into arithmetic. *)
Ltac path_facts :=
  unfold nonzero in *; eqb_hyps;
  repeat match goal with
  | H : index (map _ (seq 0 32)) _ = Some _ |- _ =>
      apply index_pnodes_some in H; destruct H as [? ->]
  | H : index (map _ (seq 0 32)) _ = None |- _ => apply index_pnodes_none in H
  | H : index arch_sz _ = Some _ |- _ => apply index_arch_sz_some in H
  | H : index arch_sz _ = None |- _ => apply index_arch_sz_none in H
  end.

(** X2: ft2c's thread prints its PASSED line exactly when everything it
    tests holds: its first gettid gives an id, the first node check and the
    thread check pass, the hop to the sink returns 0 with done still 0, the
    gettid at the sink gives an id, the gettid after the hop back gives the
    first id again, and the last node check passes.  What the hop back
    returned is not among the conditions. *)
Theorem ft2c_passed_iff (p : Platform) (t : Ft2c.thread) :
  passed (Ft2c.child_thread p (enter t [])).2 <-> round_trip_ok p t.
Proof.
  unfold round_trip_ok, checks_pass, node_online, archs_printable, thread_at, passed.
  unfold Ft2c.child_thread, Ft2c.node_sanity_check, Ft2c.thread_sanity_check, enter.
  unfold_monad. cbn -[index seq].
  run_body_eq; path_facts.
  all: unfold NODE_OFFLINE in *.
  all: split;
    [ intros (tid & nid & Hin); cbn in Hin;
      first [ exfalso; intuition discriminate | intuition (first [lia | congruence]) ]
    | intros Hall; first [ exfalso; intuition (first [lia | congruence])
                      | exists (gettid_ret p 0), (Ft2c.source_nid t); cbn; tauto ] ].
Qed.

(** X3: ft2c's thread calls migrate at all exactly when its own id, the
    node sanity check and the thread sanity check are in order; a failed
    check ends the thread before any migration. *)
Theorem ft2c_migrates_iff (p : Platform) (t : Ft2c.thread) :
  (exists nid, In (Migrate nid) (trace (Ft2c.child_thread p (enter t [])).2))
  <-> checks_pass p t.
Proof.
  unfold checks_pass, node_online, archs_printable, thread_at.
  unfold Ft2c.child_thread, Ft2c.node_sanity_check, Ft2c.thread_sanity_check, enter.
  unfold_monad. cbn -[index seq].
  run_body_eq; path_facts.
  all: unfold NODE_OFFLINE in *.
  all: split;
    [ intros (nid & Hin); cbn in Hin;
      first [ exfalso; intuition discriminate | intuition (first [lia | congruence]) ]
    | intros Hall; first [ exfalso; intuition (first [lia | congruence])
                         | exists (Ft2c.sink_nid t); cbn; tauto ] ].
Qed.

(** X4: ft2c's thread calls migrate at most twice, first for the sink and
    then for the source, and leaves source_nid and sink_nid as main set
    them. *)
Theorem ft2c_migrations_in_order (p : Platform) (t : Ft2c.thread) :
  let w := (Ft2c.child_thread p (enter t [])).2 in
  List.filter is_migrate (trace w) =
    rev (firstn (n_migrate w) [Migrate (Ft2c.sink_nid t); Migrate (Ft2c.source_nid t)])
  /\ (n_migrate w <= 2)%nat
  /\ Ft2c.source_nid (self w) = Ft2c.source_nid t
  /\ Ft2c.sink_nid (self w) = Ft2c.sink_nid t.
Proof.
  unfold Ft2c.child_thread, Ft2c.node_sanity_check, Ft2c.thread_sanity_check, enter.
  unfold_monad. cbn -[index seq].
  run_body; repeat split; cbn; first [reflexivity | lia].
Qed.



(** ** Further properties of tnd's thread *)

Lemma tnd_entry_state p w :
  Tnd.done (Tnd.current_thread (self w)) = 0 ->
  let r := Tnd.child_thread_entry p w in
  let t' := Tnd.current_thread (self r.2) in
  match r.1 with
  | Next (tid, rn, sn) =>
      Tnd.done t' = 0 /\ Tnd.all_done (self r.2) = Tnd.all_done (self w) /\
      rn = Tnd.sink_nid (Tnd.current_thread (self w)) /\
      sn = Tnd.source_nid (Tnd.current_thread (self w)) /\
      Tnd.source_nid t' = sn /\ Tnd.sink_nid t' = rn /\
      List.filter is_migrate (trace r.2) = List.filter is_migrate (trace w) /\
      List.filter is_sleep (trace r.2) = List.filter is_sleep (trace w) /\
      n_migrate r.2 = n_migrate w
  | Return _ =>
      Tnd.done t' = 1 /\ Tnd.err t' <> 0 /\
      Tnd.all_done (self r.2) = Tnd.all_done (self w) + 1 /\
      n_migrate r.2 = n_migrate w
  | Undefined => True
  end.
Proof.
  intros Hd.
  unfold Tnd.child_thread_entry, Tnd.node_sanity_check, Tnd.store_arch_types.
  unfold_monad. unfold_tnd. cbn -[index seq].
  run_body; path_facts; cbn; repeat split; auto; try lia.
Qed.

Lemma tnd_loop_body_state p source_tid rnode snode w :
  Tnd.done (Tnd.current_thread (self w)) = 0 ->
  let r := Tnd.loop_body p source_tid rnode snode w in
  let t := Tnd.current_thread (self w) in
  let t' := Tnd.current_thread (self r.2) in
  match r.1 with
  | Next _ =>
      Tnd.done t' = 0 /\ Tnd.all_done (self r.2) = Tnd.all_done (self w) /\
      Tnd.source_nid t' = Tnd.source_nid t /\ Tnd.sink_nid t' = Tnd.sink_nid t /\
      List.filter is_migrate (trace r.2) =
        Migrate (Tnd.source_nid t) :: Migrate rnode :: List.filter is_migrate (trace w) /\
      List.filter is_sleep (trace r.2) = Sleep 1 :: List.filter is_sleep (trace w) /\
      n_migrate r.2 = S (S (n_migrate w))
  | Return _ =>
      Tnd.done t' = 1 /\ Tnd.err t' <> 0 /\
      Tnd.all_done (self r.2) = Tnd.all_done (self w) + 1
  | Undefined => True
  end.
Proof.
  intros Hd.
  unfold Tnd.loop_body.
  unfold_monad. unfold_tnd. cbn -[index seq].
  run_body; path_facts; cbn; repeat split; auto; try lia; try congruence.
Qed.

Lemma tnd_loop_state p n source_tid rn sn : forall w,
  Tnd.done (Tnd.current_thread (self w)) = 0 ->
  let r := Tnd.loop p n source_tid rn sn w in
  let t := Tnd.current_thread (self w) in
  let t' := Tnd.current_thread (self r.2) in
  match r.1 with
  | Next _ =>
      Tnd.done t' = 0 /\ Tnd.all_done (self r.2) = Tnd.all_done (self w) /\
      List.filter is_migrate (trace r.2) =
        hops (Tnd.source_nid t) rn n ++ List.filter is_migrate (trace w) /\
      List.filter is_sleep (trace r.2) =
        repeat (Sleep 1) n ++ List.filter is_sleep (trace w) /\
      n_migrate r.2 = (2 * n + n_migrate w)%nat
  | Return _ =>
      Tnd.done t' = 1 /\ Tnd.err t' <> 0 /\
      Tnd.all_done (self r.2) = Tnd.all_done (self w) + 1
  | Undefined => True
  end.
Proof.
  induction n as [|n IH]; intros w Hd; cbn zeta.
  - cbn. repeat split; auto.
  - cbn [Tnd.loop]. unfold bind.
    pose proof (tnd_loop_body_state p source_tid rn sn w Hd) as Hb. cbn zeta in Hb.
    destruct (Tnd.loop_body p source_tid rn sn w) as [[[] | [] | ] w1];
      cbn [fst snd] in *; try exact Hb.
    destruct Hb as (Hd1 & Ha1 & Hs1 & Hk1 & Hm1 & Hsl1 & Hn1).
    specialize (IH w1 Hd1). cbn zeta in IH.
    destruct (Tnd.loop p n source_tid rn sn w1) as [[[] | [] | ] w2];
      cbn [fst snd] in *; try exact I.
    + destruct IH as (Hd2 & Ha2 & Hm2 & Hsl2 & Hn2).
      repeat split; try congruence.
      * rewrite Hm2, Hm1, Hs1. unfold hops.
        change (repeat [Migrate (Tnd.source_nid (Tnd.current_thread (self w))); Migrate rn] (S n))
          with ([Migrate (Tnd.source_nid (Tnd.current_thread (self w))); Migrate rn]
                  :: repeat [Migrate (Tnd.source_nid (Tnd.current_thread (self w))); Migrate rn] n).
        rewrite repeat_cons, concat_app. cbn. rewrite <- app_assoc. reflexivity.
      * rewrite Hsl2, Hsl1.
        change (repeat (Sleep 1) (S n)) with (Sleep 1 :: repeat (Sleep 1) n).
        rewrite repeat_cons, <- app_assoc. reflexivity.
      * lia.
    + destruct IH as (Hd2 & He2 & Ha2). repeat split; congruence.
Qed.

(** X10: a thread of tnd that starts with done = 0 and leaves child_thread
    has set done to 1, holds a non-zero err and has added exactly one to
    all_done; one that is still in its loop has done = 0 and has not touched
    all_done. *)
Theorem tnd_thread_exit_state (p : Platform) (turns : nat) (w : world Tnd.mem) :
  Tnd.done (Tnd.current_thread (self w)) = 0 ->
  let r := Tnd.child_thread p turns w in
  let t' := Tnd.current_thread (self r.2) in
  (r.1 = Return tt ->
     Tnd.done t' = 1 /\ Tnd.err t' <> 0 /\
     Tnd.all_done (self r.2) = Tnd.all_done (self w) + 1) /\
  (r.1 = Next tt ->
     Tnd.done t' = 0 /\ Tnd.all_done (self r.2) = Tnd.all_done (self w)).
Proof.
  intros Hd. cbn zeta. unfold Tnd.child_thread, bind.
  pose proof (tnd_entry_state p w Hd) as He. cbn zeta in He.
  destruct (Tnd.child_thread_entry p w) as [[[[tid rn] sn] | [] | ] w1];
    cbn [fst snd] in *.
  - destruct He as (Hd1 & Ha1 & _).
    pose proof (tnd_loop_state p turns tid rn sn w1 Hd1) as Hl. cbn zeta in Hl.
    destruct (Tnd.loop p turns tid rn sn w1) as [[[] | [] | ] w2];
      cbn [fst snd] in *; split; intros Hr; try discriminate Hr.
    + destruct Hl as (Hd2 & Ha2 & _). split; congruence.
    + destruct Hl as (Hd2 & He2 & Ha2). repeat split; congruence.
  - split; intros Hr; try discriminate Hr. tauto.
  - split; intros Hr; discriminate Hr.
Qed.

(** X11: whatever the platform answers, a thread of tnd that is still in
    its loop after n turns has called migrate 2 n times, source after sink
    in every turn, and slept one second n times. *)
Theorem tnd_running_round_trips (p : Platform) (turns : nat) (m : Tnd.mem)
    (w' : world Tnd.mem) :
  Tnd.done (Tnd.current_thread m) = 0 ->
  Tnd.child_thread p turns (enter m []) = (Next tt, w') ->
  List.filter is_migrate (trace w') =
    hops (Tnd.source_nid (Tnd.current_thread m)) (Tnd.sink_nid (Tnd.current_thread m)) turns /\
  List.filter is_sleep (trace w') = repeat (Sleep 1) turns /\
  n_migrate w' = (2 * turns)%nat.
Proof.
  intros Hd. unfold Tnd.child_thread, bind.
  pose proof (tnd_entry_state p (enter m []) Hd) as He. cbn zeta in He.
  destruct (Tnd.child_thread_entry p (enter m [])) as [[[[tid rn] sn] | [] | ] w1];
    cbn [fst snd] in *; try discriminate.
  destruct He as (Hd1 & _ & Hrn & Hsn & Hs1 & Hk1 & Hm1 & Hsl1 & Hn1).
  pose proof (tnd_loop_state p turns tid rn sn w1 Hd1) as Hl. cbn zeta in Hl.
  intros Hrun. rewrite Hrun in Hl. cbn [fst snd] in Hl.
  destruct Hl as (_ & _ & Hm2 & Hsl2 & Hn2).
  rewrite Hm2, Hsl2, Hn2, Hm1, Hsl1, Hn1, Hs1. subst rn sn. cbn.
  rewrite !app_nil_r. repeat split; lia.
Qed.

(** X13: a node_sanity_check of tnd that returns an error has not written
    to the thread: arch_types is stored to only after all checks passed. *)
Theorem tnd_failed_check_keeps_thread (p : Platform) (local remote : Z)
    (w : world Tnd.mem) (e : Z) :
  (call (R' := unit) (Tnd.node_sanity_check p local remote) w).1 = Next e ->
  e <> 0 ->
  self (call (R' := unit) (Tnd.node_sanity_check p local remote) w).2 = self w.
Proof.
  unfold Tnd.node_sanity_check, Tnd.store_arch_types.
  unfold_monad. unfold_tnd. cbn -[index seq].
  run_body; path_facts; cbn; intros He Hne; first [reflexivity | congruence].
Qed.

(** X12: when the platform reports the thread at [local] and both nodes
    online, node_sanity_check of tnd on a thread with its two-element
    arch_types has no defined behaviour exactly when one of the ids is 2 or
    more; for ids 0 and 1 it returns 0, has stored arch + 1 for both nodes
    and has printed nothing. *)
Theorem tnd_node_check_bounds (p : Platform) (local remote : Z) (t : Tnd.thread)
    (ad g : Z) (tr : list event) :
  length (Tnd.arch_types t) = 2%nat ->
  node_online p 0 local remote ->
  let r := call (R' := unit) (Tnd.node_sanity_check p local remote) (enter (Tnd.Mem t ad g) tr) in
  (r.1 = Undefined <-> 2 <= local \/ 2 <= remote) /\
  (local < 2 -> remote < 2 ->
   r = (Next 0,
        World (Tnd.set_arch_types
                 (<[Z.to_nat remote := arch (node_of p remote) + 1]>
                    (<[Z.to_nat local := arch (node_of p local) + 1]> (Tnd.arch_types t)))
                 (Tnd.Mem t ad g))
              tr 0 0 1 0)).
Proof.
  intros Hlen Hon. unfold node_online, node_of in *.
  unfold Tnd.node_sanity_check, Tnd.store_arch_types, enter.
  unfold_monad. unfold_tnd.
  destruct (getnodeinfo_ret p 0) as [[err cur] tbl] eqn:Hret.
  destruct Hon as (-> & -> & Hl & Hr & Hlon & Hron).
  apply Z.eqb_neq in Hlon, Hron.
  cbn -[index seq]. rewrite Hret. cbn -[index seq].
  rewrite Z.eqb_refl. cbn -[index seq].
  rewrite ?index_pnodes by lia. cbn -[index seq].
  rewrite Hlon. cbn -[index seq].
  rewrite ?index_pnodes by lia. cbn -[index seq].
  rewrite Hron. cbn -[index seq].
  rewrite ?index_pnodes by lia. cbn -[index seq].
  rewrite Hlen. change (Z.of_nat 2) with 2.
  destruct (Z.leb_spec 0 local); [|lia].
  destruct (Z.ltb_spec local 2); cbn -[index seq].
  - rewrite length_insert, Hlen. change (Z.of_nat 2) with 2.
    destruct (Z.leb_spec 0 remote); [|lia].
    destruct (Z.ltb_spec remote 2); cbn -[index seq].
    + split; [split; [discriminate | lia] | reflexivity].
    + split; [split; [lia | reflexivity] | lia].
  - split; [split; [lia | reflexivity] | lia].
Qed.

Lemma tnd_node_check_bounds_witness :
  let r := call (R' := unit) (Tnd.node_sanity_check good 0 1)
                (enter (Tnd.Mem (Tnd.init_thread 0 1) 0 0) []) in
  (r.1 = Undefined <-> 2 <= 0 \/ 2 <= 1) /\
  (0 < 2 -> 1 < 2 ->
   r = (Next 0,
        World (Tnd.set_arch_types
                 (<[Z.to_nat 1 := arch (node_of good 1) + 1]>
                    (<[Z.to_nat 0 := arch (node_of good 0) + 1]>
                       (Tnd.arch_types (Tnd.init_thread 0 1))))
                 (Tnd.Mem (Tnd.init_thread 0 1) 0 0))
              [] 0 0 1 0)).
Proof.
  apply (tnd_node_check_bounds good 0 1 (Tnd.init_thread 0 1) 0 0 []).
  - reflexivity.
  - unfold node_online. cbn. repeat split; (lia || discriminate).
Defined.

Lemma tnd_failed_check_keeps_thread_witness :
  self (call (R' := unit) (Tnd.node_sanity_check good 1 0)
             (enter (Tnd.Mem (Tnd.init_thread 1 0) 0 0) [])).2
  = Tnd.Mem (Tnd.init_thread 1 0) 0 0.
Proof.
  apply (tnd_failed_check_keeps_thread good 1 0
           (enter (Tnd.Mem (Tnd.init_thread 1 0) 0 0) []) (-1)).
  - reflexivity.
  - discriminate.
Defined.

Lemma tnd_thread_exit_state_witness :
  let r := Tnd.child_thread migrate_refused 3 (enter (Tnd.Mem (Tnd.init_thread 0 1) 0 0) []) in
  let t' := Tnd.current_thread (self r.2) in
  (r.1 = Return tt ->
     Tnd.done t' = 1 /\ Tnd.err t' <> 0 /\
     Tnd.all_done (self r.2) = 0 + 1) /\
  (r.1 = Next tt ->
     Tnd.done t' = 0 /\ Tnd.all_done (self r.2) = 0).
Proof.
  apply (tnd_thread_exit_state migrate_refused 3
           (enter (Tnd.Mem (Tnd.init_thread 0 1) 0 0) [])).
  reflexivity.
Defined.

Lemma tnd_running_round_trips_witness :
  List.filter is_migrate
    (trace (Tnd.child_thread return_hop_offline 2
              (enter (Tnd.Mem (Tnd.init_thread 0 1) 0 0) [])).2) = hops 0 1 2 /\
  List.filter is_sleep
    (trace (Tnd.child_thread return_hop_offline 2
              (enter (Tnd.Mem (Tnd.init_thread 0 1) 0 0) [])).2) = repeat (Sleep 1) 2 /\
  n_migrate (Tnd.child_thread return_hop_offline 2
               (enter (Tnd.Mem (Tnd.init_thread 0 1) 0 0) [])).2 = (2 * 2)%nat.
Proof.
  apply (tnd_running_round_trips return_hop_offline 2 (Tnd.Mem (Tnd.init_thread 0 1) 0 0)).
  - reflexivity.
  - vm_compute. reflexivity.
Defined.

(** ** Further properties of main *)


Lemma alloc_loop_fail p todo : forall i tr j,
  (j < todo)%nat ->
  (forall j', (j' < j)%nat -> memalign_ret p (i + j') = 0) ->
  memalign_ret p (i + j) <> 0 ->
  Tnd.alloc_loop p todo i tr = (memalign_ret p (i + j), repeat Memalign (S j) ++ tr).
Proof.
  induction todo as [|todo IH]; intros i tr j Hj Hbefore Hfail; [lia|]. cbn [Tnd.alloc_loop].
  destruct j as [|j].
  - rewrite Nat.add_0_r in *. unfold nonzero.
    rewrite (proj2 (Z.eqb_neq _ _) Hfail). reflexivity.
  - pose proof (Hbefore 0%nat ltac:(lia)) as H0. rewrite Nat.add_0_r in H0.
    rewrite H0. cbn [nonzero Z.eqb negb].
    rewrite (IH (S i) (Memalign :: tr) j); try lia.
    + replace (S i + j)%nat with (i + S j)%nat by lia.
      change (Memalign :: tr) with ([Memalign] ++ tr).
      rewrite app_assoc, <- repeat_cons. reflexivity.
    + intros j' Hj'. replace (S i + j')%nat with (i + S j')%nat by lia.
      apply Hbefore. lia.
    + replace (S i + j)%nat with (i + S j)%nat by lia. assumption.
Qed.


Section TndMain.
Variable p : Platform.
Variable argv : list string.
Variables a1 a2 a3 : string.
Hypothesis Hpid : pid p <> -1.
Hypothesis H1 : argv !! 1%nat = Some a1.
Hypothesis H2 : argv !! 2%nat = Some a2.
Hypothesis H3 : argv !! 3%nat = Some a3.
Hypothesis Hids : valid_ids a1 a2.

Lemma tnd_main_after_checks :
  Tnd.main p argv =
  match Tnd.__init_thread_params p (atoi a3) (map Print (banner p argv 4)) with
  | None => (UndefinedBehaviour, Malloc :: map Print (banner p argv 4))
  | Some (tnd_errno, tr) =>
      if nonzero tnd_errno then (Exited tnd_errno, Print (MsgInitFail tnd_errno) :: tr)
      else
        let tr := BarrierWait :: Tnd.create_loop (Z.to_nat (atoi a3)) 0 tr in
        if atoi a3 <? 0 then (UndefinedBehaviour, tr)
        else if 0 <? atoi a3 then (Hangs, tr)
        else (Exited tnd_errno, Print (MsgTestPassed (atoi a1)) :: BarrierWait :: tr)
  end.
Proof.
  destruct Hids as (Hne & Hs & Hk).
  unfold Tnd.main. cbv zeta.
  rewrite (proj2 (Z.eqb_neq _ _) Hpid), H1, H2, H3, banner_trace.
  rewrite (proj2 (Z.eqb_neq _ _) Hne).
  rewrite (proj2 (in_range_test _ _) (conj Hs Hk)).
  destruct (Tnd.__init_thread_params _ _ _) as [[e tr]|]; [|reflexivity].
  destruct (nonzero e); [reflexivity|].
  destruct (atoi a3 <? 0); [reflexivity|].
  destruct (0 <? atoi a3); reflexivity.
Qed.
End TndMain.


(** X15: tnd asked for 0 threads allocates and starts nothing, passes its
    barrier of one party twice, prints TEST PASSED and returns 0. *)
Theorem tnd_main_without_threads (p : Platform) (argv : list string)
    (a1 a2 a3 : string) :
  pid p <> -1 ->
  argv !! 1%nat = Some a1 -> argv !! 2%nat = Some a2 -> argv !! 3%nat = Some a3 ->
  valid_ids a1 a2 ->
  atoi a3 = 0 ->
  Tnd.main p argv =
  (Exited 0,
   Print (MsgTestPassed (atoi a1)) :: BarrierWait :: BarrierWait :: BarrierInit 1
     :: Malloc :: map Print (banner p argv 4)).
Proof.
  intros Hpid H1 H2 H3 Hids Hn.
  rewrite (tnd_main_after_checks p argv a1 a2 a3) by assumption.
  unfold Tnd.__init_thread_params. rewrite Hn. reflexivity.
Qed.

(** X16: a failing posix_memalign ends the run before any thread is
    created, with the allocator's code as exit code: in ft2c the single
    allocation, in tnd the first one that fails, after which no further
    allocation is tried and the barrier is not initialised. *)
Theorem allocation_failure_is_fatal (p : Platform) (argv : list string)
    (a1 a2 : string) :
  pid p <> -1 ->
  argv !! 1%nat = Some a1 -> argv !! 2%nat = Some a2 ->
  valid_ids a1 a2 ->
  (memalign_ret p 0 <> 0 ->
   Ft2c.main p argv =
   (Exited (memalign_ret p 0),
    Print (MsgInitFail (memalign_ret p 0)) :: Memalign :: map Print (banner p argv 3))) /\
  (forall a3 j,
     argv !! 3%nat = Some a3 ->
     malloc_ok p = true ->
     (j < Z.to_nat (atoi a3))%nat ->
     (forall j', (j' < j)%nat -> memalign_ret p j' = 0) ->
     memalign_ret p j <> 0 ->
     Tnd.main p argv =
     (Exited (memalign_ret p j),
      Print (MsgInitFail (memalign_ret p j)) :: repeat Memalign (S j)
        ++ Malloc :: map Print (banner p argv 4))).
Proof.
  intros Hpid H1 H2 Hids. split.
  - intros Hfail. destruct Hids as (Hne & Hs & Hk).
    unfold Ft2c.main. cbv zeta.
    rewrite (proj2 (Z.eqb_neq _ _) Hpid), H1, H2, banner_trace.
    rewrite (proj2 (Z.eqb_neq _ _) Hne).
    rewrite (proj2 (in_range_test _ _) (conj Hs Hk)).
    unfold nonzero. rewrite (proj2 (Z.eqb_neq _ _) Hfail). reflexivity.
  - intros a3 j H3 Hmalloc Hj Hbefore Hfail.
    rewrite (tnd_main_after_checks p argv a1 a2 a3) by assumption.
    unfold Tnd.__init_thread_params. rewrite Hmalloc, andb_false_r.
    rewrite (alloc_loop_fail p _ 0 _ j Hj Hbefore Hfail). cbn [Nat.add].
    unfold nonzero. rewrite (proj2 (Z.eqb_neq _ _) Hfail). cbn [negb]. cbv iota beta.
    rewrite (proj2 (Z.eqb_neq _ _) Hfail). reflexivity.
Qed.


Lemma tnd_main_without_threads_witness :
  Tnd.main good ["tnd"; "0"; "1"; "0"]%string =
  (Exited 0,
   Print (MsgTestPassed (atoi "0")) :: BarrierWait :: BarrierWait :: BarrierInit 1
     :: Malloc :: map Print (banner good ["tnd"; "0"; "1"; "0"]%string 4)).
Proof.
  apply (tnd_main_without_threads good ["tnd"; "0"; "1"; "0"]%string "0" "1" "0");
    try reflexivity.
  - discriminate.
  - unfold valid_ids, in_range. vm_compute. repeat split; congruence.
Defined.

Lemma allocation_failure_is_fatal_witness :
  Ft2c.main (alloc_fails_at 0) ["prog"; "0"; "1"; "3"]%string =
  (Exited 12,
   Print (MsgInitFail 12) :: Memalign
     :: map Print (banner (alloc_fails_at 0) ["prog"; "0"; "1"; "3"]%string 3))
  /\
  Tnd.main (alloc_fails_at 1) ["prog"; "0"; "1"; "3"]%string =
  (Exited 12,
   Print (MsgInitFail 12) :: repeat Memalign 2
     ++ Malloc :: map Print (banner (alloc_fails_at 1) ["prog"; "0"; "1"; "3"]%string 4)).
Proof.
  assert (Hids : valid_ids "0" "1").
  { unfold valid_ids, in_range. vm_compute. repeat split; congruence. }
  split.
  - apply (proj1 (allocation_failure_is_fatal (alloc_fails_at 0)
                    ["prog"; "0"; "1"; "3"]%string "0"%string "1"%string
                    ltac:(discriminate) eq_refl eq_refl Hids)).
    discriminate.
  - apply (proj2 (allocation_failure_is_fatal (alloc_fails_at 1)
                    ["prog"; "0"; "1"; "3"]%string "0"%string "1"%string
                    ltac:(discriminate) eq_refl eq_refl Hids) "3"%string 1%nat).
    + reflexivity.
    + reflexivity.
    + vm_compute. lia.
    + intros j' Hj'. assert (j' = 0%nat) as -> by lia. reflexivity.
    + discriminate.
Defined.

Lemma ft2c_exit_code_of_started_run_witness :
  In (Create 0)
     [Print (MsgTestPassed 0); Free 0; Print (MsgThreadExit 0 101 0); Join 0;
      Print (MsgInvalidDest 101 1); Migrate 1;
      Print (MsgRemoteArch 1 (Some "x86-64"%string));
      Print (MsgLocalArch 0 (Some "arm64"%string));
      Print (MsgThreadIdD 101); BarrierWait; BarrierWait;
      Create 0; BarrierInit 2; Memalign; Print (MsgProcessId 100)]
  /\ 0 = 0.
Proof.
  split; [cbn; tauto|].
  apply (ft2c_exit_code_of_started_run migrate_refused ["ft2c"; "0"; "1"]%string 0
           [Print (MsgTestPassed 0); Free 0; Print (MsgThreadExit 0 101 0); Join 0;
            Print (MsgInvalidDest 101 1); Migrate 1;
            Print (MsgRemoteArch 1 (Some "x86-64"%string));
            Print (MsgLocalArch 0 (Some "arm64"%string));
            Print (MsgThreadIdD 101); BarrierWait; BarrierWait;
            Create 0; BarrierInit 2; Memalign; Print (MsgProcessId 100)]).
  - vm_compute. reflexivity.
  - cbn. tauto.
Defined.

(** ** Further properties of the interleavings *)




Lemma tnd_main_stuck_witness :
  TndSched.not_past_barrier1
    (TndSched.mpc (TndSched.State TndSched.M_waiting1 [TndSched.T_entry] 0 0 1)).
Proof.
  apply (tnd_main_stuck 1).
  - lia.
  - eapply TndSched.reach_step; [|apply TndSched.main_arrive1].
    eapply TndSched.reach_step; [|apply (TndSched.main_created 1 1); lia].
    eapply TndSched.reach_step;
      [|apply (TndSched.main_create 1 0 [TndSched.T_absent]); lia].
    apply TndSched.reach_init.
Defined.
